(** * carto_vivabilite: filter store, API client and scoring contract

    A shallow embedding of the client-side filter store
    (frontend/src/stores/filterStore.ts), of the request assembly in the
    API client (frontend/src/lib/api.ts) and in the useSearchCommunes hook,
    of the map style callback, and of the scoring contract of the engine.

    Modelling conventions.
    - A TypeScript [number] is a rational ([Q]); [Math.max] and [Math.min]
      are [Qmax] and [Qmin].  NaN and the two infinities are not
      represented: the development speaks about finite numeric values.
    - A [Record<string, T>] is a finite map [gmap string T] over the own
      keys of the object; [obj[k]] is lookup, [{...obj, [k]: v}] is insert.
    - An optional field ([T | undefined]) is an [option T].
    - The zustand store is explicit state passing: an action is a function
      from [FilterState.t] to [FilterState.t]; [set(partial)] replaces the
      listed fields and keeps the others.

    The store is embedded a second time over JavaScript values ([JsNum],
    [JsObject], [JsStore]): numbers with NaN and the infinities, property
    reads through the prototype chain, assignments that may reach the
    [__proto__] setter.  What depends on those is stated on that model;
    [Agreement] relates the two on finite numbers and on filter ids that
    [Object.prototype] does not define. *)

From Stdlib Require Import QArith Qminmax Qround Lqa.
From stdpp Require Import base strings list gmap fin_maps pretty.

Local Open Scope Q_scope.

(** ** JavaScript primitives *)

Abbreviation number := Q.

Definition Math_max (a b : number) : number := Qmax a b.
Definition Math_min (a b : number) : number := Qmin a b.

(** Strict equality [a === b] on numbers. *)
Definition num_eqb (a b : number) : bool := Qeq_bool a b.

(** Truthiness of a number: [0] is falsy. *)
Definition truthy_num (n : number) : bool := negb (num_eqb n 0).

(** Truthiness of a string: the empty string is falsy. *)
Definition truthy_str (s : string) : bool :=
  match s with
  | EmptyString => false
  | String _ _ => true
  end.

(** [x || d] for an optional number [x]. *)
Definition or_num (x : option number) (d : number) : number :=
  match x with
  | Some n => if truthy_num n then n else d
  | None => d
  end.

(** [x ?? d] for a possibly missing number. *)
Definition nullish_num (x : option number) (d : number) : number :=
  match x with
  | Some n => n
  | None => d
  end.

(** [xs.length > 0] *)
Definition nonempty {A} (xs : list A) : bool :=
  match xs with
  | [] => false
  | _ :: _ => true
  end.

(** ** Types (frontend/src/types) *)

Module RangeFilter.
Record t := mk { min : number; max : number; enabled : bool }.
End RangeFilter.

Module WeightConfig.
Record t := mk { id : string; weight : number; enabled : bool }.
End WeightConfig.

Module FilterCategory.
Record t := mk {
  id : string;
  name : string;
  description : string;
  icon : string;
  unit : option string;
  weightDefault : number;
  datasetId : string
}.
End FilterCategory.

Module FilterState.
Record t := mk {
  weights : gmap string WeightConfig.t;
  minScore : number;
  population : RangeFilter.t;
  searchQuery : string;
  departements : list string;
  regions : list string;
  categoriesLoaded : bool
}.
End FilterState.

Module Bounds.
Record t := mk { north : number; south : number; east : number; west : number }.
End Bounds.

Module SearchFilters.
Record t := mk {
  weights : gmap string number;
  minScore : option number;
  populationMin : option number;
  populationMax : option number;
  departements : option (list string);
  regions : option (list string);
  searchQuery : option string;
  bounds : option Bounds.t;
  limit : option number;
  offset : option number
}.
End SearchFilters.

(** [createDefaultFilterState] *)
Definition createDefaultFilterState : FilterState.t :=
  {| FilterState.weights := ∅;
     FilterState.minScore := 0;
     FilterState.population :=
       {| RangeFilter.min := 0; RangeFilter.max := 1000000;
          RangeFilter.enabled := false |};
     FilterState.searchQuery := "";
     FilterState.departements := [];
     FilterState.regions := [];
     FilterState.categoriesLoaded := false |}.

(** ** The filter store (frontend/src/stores/filterStore.ts) *)

Module Store.
Import FilterState.

(** [set({ weights: w })] and the like: one field replaced, the rest kept. *)
Definition set_weights (w : gmap string WeightConfig.t) (s : t) : t :=
  mk w (minScore s) (population s) (searchQuery s) (departements s)
     (regions s) (categoriesLoaded s).

Definition set_minScore (x : number) (s : t) : t :=
  mk (weights s) x (population s) (searchQuery s) (departements s)
     (regions s) (categoriesLoaded s).

Definition set_population (p : RangeFilter.t) (s : t) : t :=
  mk (weights s) (minScore s) p (searchQuery s) (departements s)
     (regions s) (categoriesLoaded s).

Definition set_searchQuery (q : string) (s : t) : t :=
  mk (weights s) (minScore s) (population s) q (departements s)
     (regions s) (categoriesLoaded s).

Definition set_departements (codes : list string) (s : t) : t :=
  mk (weights s) (minScore s) (population s) (searchQuery s) codes
     (regions s) (categoriesLoaded s).

Definition set_regions (codes : list string) (s : t) : t :=
  mk (weights s) (minScore s) (population s) (searchQuery s)
     (departements s) codes (categoriesLoaded s).

(** One iteration of the loop of [initializeFromCategories]: an entry that
    is already in the current weights is kept, a new one gets the default
    of the category and is enabled. *)
Definition initEntry (currentWeights : gmap string WeightConfig.t)
    (newWeights : gmap string WeightConfig.t) (category : FilterCategory.t)
    : gmap string WeightConfig.t :=
  match currentWeights !! FilterCategory.id category with
  | Some existing => <[FilterCategory.id category := existing]> newWeights
  | None =>
      <[FilterCategory.id category :=
          {| WeightConfig.id := FilterCategory.id category;
             WeightConfig.weight := FilterCategory.weightDefault category;
             WeightConfig.enabled := true |}]> newWeights
  end.

Definition initializeFromCategories (categories : list FilterCategory.t)
    (s : t) : t :=
  let currentWeights := weights s in
  let newWeights := foldl (initEntry currentWeights) ∅ categories in
  mk newWeights (minScore s) (population s) (searchQuery s)
     (departements s) (regions s) true.

Definition setWeight (filterId : string) (weight : number) (s : t) : t :=
  match weights s !! filterId with
  | None => s
  | Some config =>
      set_weights
        (<[filterId :=
             {| WeightConfig.id := WeightConfig.id config;
                WeightConfig.weight := Math_max 0 (Math_min 100 weight);
                WeightConfig.enabled := WeightConfig.enabled config |}]>
           (weights s)) s
  end.

Definition toggleFilter (filterId : string) (s : t) : t :=
  match weights s !! filterId with
  | None => s
  | Some config =>
      set_weights
        (<[filterId :=
             {| WeightConfig.id := WeightConfig.id config;
                WeightConfig.weight := WeightConfig.weight config;
                WeightConfig.enabled := negb (WeightConfig.enabled config) |}]>
           (weights s)) s
  end.

Definition setMinScore (score : number) (s : t) : t :=
  set_minScore (Math_max 0 (Math_min 100 score)) s.

Definition setPopulationRange (min max : number) (s : t) : t :=
  set_population
    {| RangeFilter.min := Math_max 0 min;
       RangeFilter.max := Math_max min max;
       RangeFilter.enabled := RangeFilter.enabled (population s) |} s.

Definition togglePopulationFilter (s : t) : t :=
  set_population
    {| RangeFilter.min := RangeFilter.min (population s);
       RangeFilter.max := RangeFilter.max (population s);
       RangeFilter.enabled := negb (RangeFilter.enabled (population s)) |} s.

Definition setSearchQuery (query : string) (s : t) : t :=
  set_searchQuery query s.

Definition setDepartements (codes : list string) (s : t) : t :=
  set_departements codes s.

Definition setRegions (codes : list string) (s : t) : t :=
  set_regions codes s.

(** The body of the loop of [resetFilters]. *)
Definition resetEntry (id : string) (config : WeightConfig.t)
    (resetWeights : gmap string WeightConfig.t) : gmap string WeightConfig.t :=
  <[id := {| WeightConfig.id := WeightConfig.id config;
             WeightConfig.weight := 50;
             WeightConfig.enabled := true |}]> resetWeights.

Definition resetFilters (s : t) : t :=
  let resetWeights := map_fold resetEntry ∅ (weights s) in
  mk resetWeights 0
     {| RangeFilter.min := 0; RangeFilter.max := 1000000;
        RangeFilter.enabled := false |}
     "" [] [] (categoriesLoaded s).

(** The body of the loop of [getEnabledWeights]. *)
Definition enabledEntry (filterId : string) (config : WeightConfig.t)
    (enabledWeights : gmap string number) : gmap string number :=
  if WeightConfig.enabled config
  then <[filterId := WeightConfig.weight config]> enabledWeights
  else <[filterId := 0]> enabledWeights.

Definition getEnabledWeights (s : t) : gmap string number :=
  map_fold enabledEntry ∅ (weights s).

(** The test of the first loop of [hasActiveFilters]. *)
Definition activeConfig (config : WeightConfig.t) : bool :=
  negb (num_eqb (WeightConfig.weight config) 50)
  || negb (WeightConfig.enabled config).

(** The first loop of [hasActiveFilters]: it returns [true] at the first
    configuration that passes the test. *)
Definition anyActiveWeight (w : gmap string WeightConfig.t) : bool :=
  map_fold (λ _ config found, activeConfig config || found) false w.

Definition hasActiveFilters (s : t) : bool :=
  if anyActiveWeight (weights s) then true
  else if negb (num_eqb (minScore s) 0) then true
  else if RangeFilter.enabled (population s) then true
  else if negb (String.eqb (searchQuery s) "") then true
  else if nonempty (departements s) then true
  else if nonempty (regions s) then true
  else false.

(** The actions of the store, and what each does to the state. *)
Inductive Action :=
| InitializeFromCategories (categories : list FilterCategory.t)
| SetWeight (filterId : string) (weight : number)
| ToggleFilter (filterId : string)
| SetMinScore (score : number)
| SetPopulationRange (min max : number)
| TogglePopulationFilter
| SetSearchQuery (query : string)
| SetDepartements (codes : list string)
| SetRegions (codes : list string)
| ResetFilters.

Definition dispatch (a : Action) (s : t) : t :=
  match a with
  | InitializeFromCategories categories => initializeFromCategories categories s
  | SetWeight filterId weight => setWeight filterId weight s
  | ToggleFilter filterId => toggleFilter filterId s
  | SetMinScore score => setMinScore score s
  | SetPopulationRange min max => setPopulationRange min max s
  | TogglePopulationFilter => togglePopulationFilter s
  | SetSearchQuery query => setSearchQuery query s
  | SetDepartements codes => setDepartements codes s
  | SetRegions codes => setRegions codes s
  | ResetFilters => resetFilters s
  end.

(** A run of the store: the actions applied from left to right. *)
Definition run (actions : list Action) (s : t) : t :=
  foldl (λ st a, dispatch a st) s actions.

(** The weight invariant of the store: every stored weight is in [0,100]. *)
Definition weightInRange (config : WeightConfig.t) : Prop :=
  0 <= WeightConfig.weight config /\ WeightConfig.weight config <= 100.

Definition weightsInRange (s : t) : Prop :=
  map_Forall (λ _ config, weightInRange config) (weights s).

(** What the invariant assumes of the data an action carries: the default
    weight of a category is in [0,100]. *)
Definition categoryOk (category : FilterCategory.t) : Prop :=
  0 <= FilterCategory.weightDefault category
  /\ FilterCategory.weightDefault category <= 100.

Definition actionOk (a : Action) : Prop :=
  match a with
  | InitializeFromCategories categories => Forall categoryOk categories
  | _ => True
  end.

(** What [resetFilters] stores for a configuration, and the weight that
    [getEnabledWeights] reports for one. *)
Definition resetConfig (config : WeightConfig.t) : WeightConfig.t :=
  {| WeightConfig.id := WeightConfig.id config;
     WeightConfig.weight := 50;
     WeightConfig.enabled := true |}.

Definition effectiveWeight (config : WeightConfig.t) : number :=
  if WeightConfig.enabled config then WeightConfig.weight config else 0.

(** A population range is well formed when its bounds are in order. *)
Definition wellFormed (p : RangeFilter.t) : Prop :=
  RangeFilter.min p <= RangeFilter.max p.

(** The store kept the pair it was given. *)
Definition keptAsGiven (min max : number) (p : RangeFilter.t) : Prop :=
  RangeFilter.min p == min /\ RangeFilter.max p == max.

(** [setPopulationRange min max] replaced the pair by another, well-formed
    one. *)
Definition silentlyCorrected (min max : number) (s : t) : Prop :=
  let p := population (setPopulationRange min max s) in
  ¬ keptAsGiven min max p /\ wellFormed p.

End Store.

(** ** The API client (frontend/src/lib/api.ts) *)

Module SearchBody.
Record t := mk {
  weights : gmap string number;
  min_score : option number;
  population_min : option number;
  population_max : option number;
  departements : option (list string);
  regions : option (list string);
  search_query : option string;
  bounds : option Bounds.t;
  limit : number;
  offset : number
}.
End SearchBody.

Module Request.
Record t := mk { endpoint : string; method : string; body : SearchBody.t }.
End Request.

Module Api.

(** The request that [api.searchCommunes] hands to [fetchAPI]. *)
Definition searchCommunes (filters : SearchFilters.t) : Request.t :=
  let body :=
    {| SearchBody.weights := SearchFilters.weights filters;
       SearchBody.min_score := SearchFilters.minScore filters;
       SearchBody.population_min := SearchFilters.populationMin filters;
       SearchBody.population_max := SearchFilters.populationMax filters;
       SearchBody.departements := SearchFilters.departements filters;
       SearchBody.regions := SearchFilters.regions filters;
       SearchBody.search_query := SearchFilters.searchQuery filters;
       SearchBody.bounds := SearchFilters.bounds filters;
       SearchBody.limit := or_num (SearchFilters.limit filters) 50;
       SearchBody.offset := or_num (SearchFilters.offset filters) 0 |} in
  {| Request.endpoint := "/communes/search";
     Request.method := "POST";
     Request.body := body |}.

(** [String(simplified)] *)
Definition String_of_bool (b : bool) : string :=
  if b then "true" else "false".

(** The request that [api.searchGeoJSON] hands to [fetchAPI]; the caller
    may leave [simplified] out, it is then [true]. *)
Definition searchGeoJSON (filters : SearchFilters.t) (simplified : bool)
    : Request.t :=
  let body :=
    {| SearchBody.weights := SearchFilters.weights filters;
       SearchBody.min_score := SearchFilters.minScore filters;
       SearchBody.population_min := SearchFilters.populationMin filters;
       SearchBody.population_max := SearchFilters.populationMax filters;
       SearchBody.departements := SearchFilters.departements filters;
       SearchBody.regions := SearchFilters.regions filters;
       SearchBody.search_query := SearchFilters.searchQuery filters;
       SearchBody.bounds := SearchFilters.bounds filters;
       SearchBody.limit := or_num (SearchFilters.limit filters) 500;
       SearchBody.offset := 0 |} in
  {| Request.endpoint :=
       "/geojson/communes/search?simplified=" +:+ String_of_bool simplified;
     Request.method := "POST";
     Request.body := body |}.

End Api.

(** ** The search hook (hooks/useCommunes.ts) *)

Module Hooks.

(** The [filters] object that [useSearchCommunes] assembles from its
    argument and from the filter store. *)
Definition useSearchCommunes_filters (weights : gmap string number)
    (s : FilterState.t) : SearchFilters.t :=
  let population := FilterState.population s in
  let searchQuery := FilterState.searchQuery s in
  let departements := FilterState.departements s in
  let regions := FilterState.regions s in
  {| SearchFilters.weights := weights;
     SearchFilters.minScore := Some (FilterState.minScore s);
     SearchFilters.populationMin :=
       if RangeFilter.enabled population
       then Some (RangeFilter.min population) else None;
     SearchFilters.populationMax :=
       if RangeFilter.enabled population
       then Some (RangeFilter.max population) else None;
     SearchFilters.searchQuery :=
       if truthy_str searchQuery then Some searchQuery else None;
     SearchFilters.departements :=
       if nonempty departements then Some departements else None;
     SearchFilters.regions :=
       if nonempty regions then Some regions else None;
     SearchFilters.bounds := None;
     SearchFilters.limit := None;
     SearchFilters.offset := None |}.

End Hooks.

(** ** The map style callback (components/map/MapContainer.tsx) *)

Module MapContainer.

(** The properties the style callback reads off a feature; either may be
    missing. *)
Record FeatureProps := {
  score_global : option number;
  code_insee : option string
}.

Record Feature := { properties : option FeatureProps }.

(** [feature?.properties] followed by [props?.score_global]. *)
Definition props_score_global (feature : option Feature) : option number :=
  match feature with
  | None => None
  | Some f =>
      match properties f with
      | None => None
      | Some props => score_global props
      end
  end.

(** The score that the [style] callback passes to [getFeatureStyle]. *)
Definition styleScore (feature : option Feature) : number :=
  nullish_num (props_score_global feature) 50.

End MapContainer.

(** ** The scoring contract (section 4.2 of the specification) *)

Module Scoring.

(** Modelled from the spec: the Commune of the data model, which lives in
    the backend and is not among the source files.  Only the criteria whose
    dataset covers the commune are present in [scores]. *)
Record Commune := {
  codeInsee : string;
  nom : string;
  population : N;
  scores : gmap string number
}.

(** Modelled from the spec: one step of the accumulation of the Scoring
    Engine, which is backend code missing from the source files.  A
    criterion of the weight vector counts when its weight is positive and
    the commune has a normalized score for it; the pair holds the weighted
    sum and the sum of the weights. *)
Definition accumulate (commune : Commune) (id : string) (weight : number)
    (acc : number * number) : number * number :=
  if Qle_bool weight 0 then acc
  else
    match scores commune !! id with
    | Some normalizedScore =>
        (acc.1 + weight * normalizedScore, acc.2 + weight)
    | None => acc
    end.

(** Modelled from the spec: the weighted sum and the denominator over the
    whole weight vector (Scoring Engine, missing from the source files). *)
Definition totals (commune : Commune) (weightVector : gmap string number)
    : number * number :=
  map_fold (accumulate commune) (0, 0) weightVector.

(** Modelled from the spec: the composite of the Scoring Engine (missing
    from the source files): weighted sum over sum of weights, and the
    neutral midpoint 50 when the denominator is zero. *)
Definition composite (commune : Commune) (weightVector : gmap string number)
    : number :=
  let '(weighted, denominator) := totals commune weightVector in
  if num_eqb denominator 0 then 50 else weighted / denominator.

(** Modelled from the spec: [score] of the Scoring Engine (missing from the
    source files); the per-criterion scores are passed through. *)
Definition score (commune : Commune) (weightVector : gmap string number)
    : gmap string number * number :=
  (scores commune, composite commune weightVector).

(** The data-model invariants the contract relies on. *)
Definition inRange (x : number) : Prop := 0 <= x /\ x <= 100.

Definition validWeights (weightVector : gmap string number) : Prop :=
  map_Forall (λ _ w, inRange w) weightVector.

Definition validScores (commune : Commune) : Prop :=
  map_Forall (λ _ x, inRange x) (scores commune).

(** No criterion of the weight vector has data for the commune. *)
Definition noData (commune : Commune) (weightVector : gmap string number)
    : Prop :=
  ∀ id, is_Some (weightVector !! id) → scores commune !! id = None.

(** The accumulated pair: a non-negative denominator, and a weighted sum
    between 0 and 100 times the denominator. *)
Definition boundedTotals (r : number * number) : Prop :=
  0 <= r.2 /\ 0 <= r.1 /\ r.1 <= 100 * r.2.

End Scoring.

(** ** Score levels (frontend/src/types/commune.ts) *)

Module ScoreLevel.

Inductive t := excellent | good | average | poor | bad.

(** [a >= b] on numbers. *)
Definition geb (a b : number) : bool := Qle_bool b a.

Definition getScoreLevel (score : number) : t :=
  if geb score 80 then excellent
  else if geb score 60 then good
  else if geb score 40 then average
  else if geb score 20 then poor
  else bad.

(** The levels from worst to best. *)
Definition rank (level : t) : nat :=
  match level with
  | bad => 0 | poor => 1 | average => 2 | good => 3 | excellent => 4
  end.

End ScoreLevel.

(** ** Colour helpers (frontend/src/lib/utils.ts) *)

Module Utils.

(** [Math.round]: the nearest integer, a half rounding up. *)
Definition Math_round (x : number) : Z := Qfloor (x + (1 # 2)).

Definition getScoreColor (score : number) : string :=
  if ScoreLevel.geb score 80 then "rgb(34, 197, 94)"
  else if ScoreLevel.geb score 60 then "rgb(132, 204, 22)"
  else if ScoreLevel.geb score 40 then "rgb(234, 179, 8)"
  else if ScoreLevel.geb score 20 then "rgb(249, 115, 22)"
  else "rgb(239, 68, 68)".

Record ColorStop := { pos : number; r : number; g : number; b : number }.

Definition stops : list ColorStop :=
  [ {| pos := 0; r := 239; g := 68; b := 68 |};
    {| pos := 25; r := 249; g := 115; b := 22 |};
    {| pos := 50; r := 234; g := 179; b := 8 |};
    {| pos := 75; r := 132; g := 204; b := 22 |};
    {| pos := 100; r := 34; g := 197; b := 94 |} ].

(** The loop of [interpolateScoreColor]: the first pair of neighbouring
    stops whose positions enclose [s]. *)
Fixpoint findStops (s : number) (l : list ColorStop)
    : option (ColorStop * ColorStop) :=
  match l with
  | currentStop :: ((nextStop :: _) as rest) =>
      if ScoreLevel.geb s (pos currentStop) && Qle_bool s (pos nextStop)
      then Some (currentStop, nextStop)
      else findStops s rest
  | _ => None
  end.

(** One channel: [Math.round(lower + (upper - lower) * factor)]. *)
Definition channel (lower upper factor : number) : Z :=
  Math_round (lower + (upper - lower) * factor).

(** The three channels that [interpolateScoreColor] computes; [None] is
    the branch that returns the grey fallback. *)
Definition interpolateScoreChannels (score : number) : option (Z * Z * Z) :=
  let s := Math_max 0 (Math_min 100 score) in
  let found := findStops s stops in
  let lower :=
    match found with Some (currentStop, _) => Some currentStop
                   | None => head stops end in
  let upper :=
    match found with Some (_, nextStop) => Some nextStop
                   | None => last stops end in
  match lower, upper with
  | Some lower, Some upper =>
      let range := pos upper - pos lower in
      let factor :=
        if negb (Qle_bool range 0) then (s - pos lower) / range else 0 in
      Some (channel (r lower) (r upper) factor,
            channel (g lower) (g upper) factor,
            channel (b lower) (b upper) factor)
  | _, _ => None
  end.

(** The template string [rgb(r, g, b)]. *)
Definition rgb (c : Z * Z * Z) : string :=
  "rgb(" +:+ pretty c.1.1 +:+ ", " +:+ pretty c.1.2 +:+ ", "
         +:+ pretty c.2 +:+ ")".

Definition interpolateScoreColor (score : number) : string :=
  match interpolateScoreChannels score with
  | Some c => rgb c
  | None => "rgb(148, 163, 184)"
  end.

(** A colour channel is a byte. *)
Definition byte (x : Z) : Prop := (0 <= x <= 255)%Z.

Definition validStop (stop : ColorStop) : Prop :=
  (0 <= r stop /\ r stop <= 255) /\ (0 <= g stop /\ g stop <= 255)
  /\ (0 <= b stop /\ b stop <= 255).

End Utils.

(** ** The score badge (components/ui/ScoreBadge.tsx) *)

Module ScoreBadge.

(** What [ScoreBadge] shows for a score: the rounded number, and the level
    that picks the style class and the label. *)
Record View := { roundedScore : Z; level : ScoreLevel.t }.

Definition view (score : number) : View :=
  {| roundedScore := Utils.Math_round score;
     level := ScoreLevel.getScoreLevel score |}.

(** The lower bounds of the four upper bands. *)
Definition thresholds : list Z := [20; 40; 60; 80]%Z.

End ScoreBadge.

(** ** The legend (components/map/Legend.tsx) *)

Module Legend.

Record GradientStop := { color : string; label : string }.

Definition gradientStops : list GradientStop :=
  [ {| color := "rgb(239, 68, 68)"; label := "0" |};
    {| color := "rgb(249, 115, 22)"; label := "25" |};
    {| color := "rgb(234, 179, 8)"; label := "50" |};
    {| color := "rgb(132, 204, 22)"; label := "75" |};
    {| color := "rgb(34, 197, 94)"; label := "100" |} ].

End Legend.

(** ** The slider (components/ui/Slider.tsx) *)

Module Slider.

(** The part of [getBoundingClientRect()] that the slider reads. *)
Record Rect := { left : number; width : number }.

Record Props := {
  min : number;
  max : number;
  step : number;
  disabled : bool
}.

(** [handleChange]: the value handed to [onChange], if any.  [track] is
    [trackRef.current], missing before the track is mounted.  The two
    quotients are those of the source for a track of non-zero width and a
    non-zero step. *)
Definition handleChange (props : Props) (track : option Rect)
    (clientX : number) : option number :=
  match track with
  | None => None
  | Some rect =>
      if disabled props then None
      else
        let x := clientX - left rect in
        let percentage := Math_max 0 (Math_min 1 (x / width rect)) in
        let rawValue := min props + percentage * (max props - min props) in
        let steppedValue :=
          inject_Z (Utils.Math_round (rawValue / step props)) * step props in
        let clampedValue :=
          Math_max (min props) (Math_min (max props) steppedValue) in
        Some clampedValue
  end.

End Slider.

(** ** The filter panel (components/filters/FilterPanel.tsx) *)

Module Panel.

(** The effect that initialises the weights: it runs [initializeFromCategories]
    when the categories have arrived, are not empty, and the store has not
    loaded categories yet. *)
Definition categoriesEffect (categories : option (list FilterCategory.t))
    (s : FilterState.t) : FilterState.t :=
  match categories with
  | Some cats =>
      if nonempty cats && negb (FilterState.categoriesLoaded s)
      then Store.initializeFromCategories cats s
      else s
  | None => s
  end.

(** The props of the weight slider of a filter: 0 to 100 in steps of 5,
    disabled with the filter. *)
Definition weightSlider (config : WeightConfig.t) : Slider.Props :=
  {| Slider.min := 0; Slider.max := 100; Slider.step := 5;
     Slider.disabled := negb (WeightConfig.enabled config) |}.


(** The two population sliders and their [onChange] handlers. *)
Definition populationMinSlider : Slider.Props :=
  {| Slider.min := 0; Slider.max := 500000; Slider.step := 1000;
     Slider.disabled := false |}.

Definition populationMaxSlider : Slider.Props :=
  {| Slider.min := 0; Slider.max := 2500000; Slider.step := 10000;
     Slider.disabled := false |}.

Definition onPopulationMin (v : number) (s : FilterState.t) : FilterState.t :=
  Store.setPopulationRange v (RangeFilter.max (FilterState.population s)) s.

Definition onPopulationMax (v : number) (s : FilterState.t) : FilterState.t :=
  Store.setPopulationRange (RangeFilter.min (FilterState.population s)) v s.

End Panel.

(** ** More predicates on the store *)

Module StoreProps.
Import FilterState Store.

(** The entry that a category gets when the store has none for it. *)
Definition defaultConfig (category : FilterCategory.t) : WeightConfig.t :=
  {| WeightConfig.id := FilterCategory.id category;
     WeightConfig.weight := FilterCategory.weightDefault category;
     WeightConfig.enabled := true |}.

Definition categoryIds (categories : list FilterCategory.t) : list string :=
  FilterCategory.id <$> categories.

Definition minScoreInRange (s : t) : Prop :=
  0 <= minScore s /\ minScore s <= 100.

Definition lowerBoundNonneg (s : t) : Prop :=
  0 <= RangeFilter.min (population s).

(** The lower bound an action hands to [setPopulationRange] is not
    negative. *)
Definition nonnegRange (a : Action) : Prop :=
  match a with
  | SetPopulationRange min _ => 0 <= min
  | _ => True
  end.

End StoreProps.

(** ** The map store (frontend/src/stores/mapStore.ts) *)

Module MapStore.

Record Coordinates := { lat : number; lng : number }.

Record SelectedCommune := {
  codeInsee : string;
  nom : string;
  scoreGlobal : number;
  coordinates : Coordinates
}.

Record CommunesGeoJSON := { features : list MapContainer.Feature }.

Record t := mk {
  communes : option CommunesGeoJSON;
  selectedCommune : option SelectedCommune;
  viewportBounds : option Bounds.t;
  isLoading : bool;
  error : option string
}.

Definition initial : t := mk None None None false None.

Definition setCommunes (geojson : CommunesGeoJSON) (m : t) : t :=
  mk (Some geojson) (selectedCommune m) (viewportBounds m) (isLoading m) None.

Definition setSelectedCommune (commune : option SelectedCommune) (m : t) : t :=
  mk (communes m) commune (viewportBounds m) (isLoading m) (error m).

Definition setViewportBounds (bounds : Bounds.t) (m : t) : t :=
  mk (communes m) (selectedCommune m) (Some bounds) (isLoading m) (error m).

Definition setLoading (loading : bool) (m : t) : t :=
  mk (communes m) (selectedCommune m) (viewportBounds m) loading (error m).

Definition setError (err : option string) (m : t) : t :=
  mk (communes m) (selectedCommune m) (viewportBounds m) false err.

Definition clearSelection (m : t) : t :=
  mk (communes m) None (viewportBounds m) (isLoading m) (error m).

End MapStore.

(** ** The loaders of the hooks (hooks/useCommunes.ts) *)

Module Loaders.
Import MapStore.

(** What a [catch] clause receives: an [Error] with its message, or any
    other value. *)
Inductive Thrown := ErrorObject (message : string) | OtherValue.

(** How an awaited promise settles. *)
Inductive Settled (A : Type) := Resolved (a : A) | Rejected (e : Thrown).
Arguments Resolved {A} a.
Arguments Rejected {A} e.

(** [error instanceof Error ? error.message : fallback] *)
Definition messageOf (fallback : string) (e : Thrown) : string :=
  match e with
  | ErrorObject message => message
  | OtherValue => fallback
  end.

(** The [queryFn] of [useSearchCommunes], given how [Promise.all] of the
    two requests settles: the map store afterwards and what the query
    function itself settles to.  The store is taken not to be written by
    anyone else while the requests are in flight. *)
Definition useSearchCommunes_queryFn {R : Type}
    (requests : Settled (R * CommunesGeoJSON)) (m : t) : t * Settled R :=
  let m := setLoading true m in
  match requests with
  | Resolved (searchResult, geojson) =>
      let m := setCommunes geojson m in
      (setLoading false m, Resolved searchResult)
  | Rejected e =>
      let m := setError (Some (messageOf "Erreur inconnue" e)) m in
      (setLoading false m, Rejected e)
  end.

(** The [queryFn] of [useGeoJSON]. *)
Definition useGeoJSON_queryFn (request : Settled CommunesGeoJSON) (m : t)
    : t * Settled CommunesGeoJSON :=
  let m := setLoading true m in
  match request with
  | Resolved geojson =>
      let m := setCommunes geojson m in
      (setLoading false m, Resolved geojson)
  | Rejected e =>
      let m := setError (Some (messageOf "Erreur de chargement" e)) m in
      (setLoading false m, Rejected e)
  end.

(** [loadInitialData] of [useInitializeMap]: it catches and does not
    rethrow. *)
Definition loadInitialData (request : Settled CommunesGeoJSON) (m : t) : t :=
  let m := setLoading true m in
  match request with
  | Resolved geojson => setLoading false (setCommunes geojson m)
  | Rejected e =>
      setLoading false
        (setError (Some (messageOf "Erreur de chargement" e)) m)
  end.

(** What a loader leaves in the map store for a request that settled. *)
Definition settledStore {A : Type} (geojsonOf : A → CommunesGeoJSON)
    (fallback : string) (request : Settled A) (before after : t) : Prop :=
  isLoading after = false
  /\ selectedCommune after = selectedCommune before
  /\ viewportBounds after = viewportBounds before
  /\ match request with
     | Resolved a =>
         communes after = Some (geojsonOf a) /\ error after = None
     | Rejected e =>
         communes after = communes before
         /\ error after = Some (messageOf fallback e)
     end.

End Loaders.

(** ** The style of a map feature (components/map/MapContainer.tsx) *)

Module MapStyle.

(** The path options that [getFeatureStyle] returns; the shared canvas
    renderer, an opaque Leaflet object, is left out. *)
Record PathStyle := {
  fillColor : string;
  fillOpacity : number;
  color : string;
  weight : number;
  opacity : number
}.

Definition getFeatureStyle (score : number) (isSelected : bool) : PathStyle :=
  {| fillColor := Utils.interpolateScoreColor score;
     fillOpacity := if isSelected then 85 # 100 else 55 # 100;
     color := if isSelected then "#1e293b" else "#64748b";
     weight := if isSelected then 2 else 3 # 10;
     opacity := if isSelected then 1 else 1 # 2 |}.

(** [feature?.properties] followed by [props?.code_insee]. *)
Definition props_code_insee (feature : option MapContainer.Feature)
    : option string :=
  match feature with
  | None => None
  | Some f =>
      match MapContainer.properties f with
      | None => None
      | Some props => MapContainer.code_insee props
      end
  end.

(** [props?.code_insee === selectedCodeRef.current]: a missing code is
    [undefined], no selection is [null], and the two are not equal. *)
Definition isSelected (feature : option MapContainer.Feature)
    (selectedCode : option string) : bool :=
  match props_code_insee feature, selectedCode with
  | Some code, Some selected => String.eqb code selected
  | _, _ => false
  end.

(** The [style] callback of the GeoJSON layer. *)
Definition style (feature : option MapContainer.Feature)
    (selectedCode : option string) : PathStyle :=
  getFeatureStyle (MapContainer.styleScore feature)
    (isSelected feature selectedCode).

End MapStyle.

(** ** Query strings of the API client (frontend/src/lib/api.ts) *)

Module ApiQuery.

(** The argument of [String(...)] behind a parameter value; the decimal
    rendering of a number is not modelled. *)
Inductive ParamValue :=
| OfNumber (n : number)
| OfString (s : string)
| OfBool (b : bool).

(** A [URLSearchParams]: the pairs in order. *)
Abbreviation URLSearchParams := (list (string * ParamValue)).

Definition has (name : string) (params : URLSearchParams) : bool :=
  existsb (λ p, String.eqb p.1 name) params.

(** The replacing half of [set]: the first pair named [name] takes the
    value, the later ones are removed. *)
Fixpoint replaceFirst (name : string) (value : ParamValue)
    (params : URLSearchParams) : URLSearchParams :=
  match params with
  | [] => []
  | (k, v) :: rest =>
      if String.eqb k name
      then (k, value) :: filter (λ p, p.1 ≠ name) rest
      else (k, v) :: replaceFirst name value rest
  end.

(** [searchParams.set(name, value)] *)
Definition set (name : string) (value : ParamValue)
    (params : URLSearchParams) : URLSearchParams :=
  if has name params then replaceFirst name value params
  else params ++ [(name, value)].

(** An endpoint [path] followed, when [query] is not empty, by [?] and the
    rendering of the query. *)
Record Endpoint := { path : string; query : URLSearchParams }.

Inductive Order := asc | desc.

Definition String_of_Order (o : Order) : string :=
  match o with asc => "asc" | desc => "desc" end.

Record CommunesParams := {
  limit : option number;
  offset : option number;
  sortBy : option string;
  order : option Order
}.

(** [params?.limit] and the like: a missing [params] gives [undefined]. *)
Definition field {A B} (f : A → option B) (params : option A) : option B :=
  match params with
  | Some p => f p
  | None => None
  end.

(** [if (x) searchParams.set(name, String(x))] for an optional number. *)
Definition setIfTruthyNum (name : string) (x : option number)
    (q : URLSearchParams) : URLSearchParams :=
  match x with
  | Some n => if truthy_num n then set name (OfNumber n) q else q
  | None => q
  end.

(** The same for an optional string. *)
Definition setIfTruthyStr (name : string) (x : option string)
    (q : URLSearchParams) : URLSearchParams :=
  match x with
  | Some v => if truthy_str v then set name (OfString v) q else q
  | None => q
  end.

(** The endpoint that [api.getCommunes] fetches. *)
Definition getCommunes (params : option CommunesParams) : Endpoint :=
  let q := [] in
  let q := setIfTruthyNum "limit" (field limit params) q in
  let q := setIfTruthyNum "offset" (field offset params) q in
  let q := setIfTruthyStr "sort_by" (field sortBy params) q in
  let q := setIfTruthyStr "order"
             (String_of_Order <$> field order params) q in
  {| path := "/communes"; query := q |}.

Record GeoJSONParams := {
  minScore : option number;
  simplified : option bool
}.

(** The endpoint that [api.getGeoJSON] fetches. *)
Definition getGeoJSON (params : option GeoJSONParams) : Endpoint :=
  let q := [] in
  let q := match field minScore params with
           | Some m => set "min_score" (OfNumber m) q
           | None => q
           end in
  let q := match field simplified params with
           | Some b => set "simplified" (OfBool b) q
           | None => q
           end in
  {| path := "/geojson/communes"; query := q |}.

(** The value that a query holds for a name. *)
Definition get (name : string) (params : URLSearchParams)
    : option ParamValue :=
  snd <$> find (λ p, String.eqb p.1 name) params.

End ApiQuery.

(** * The store over JavaScript values

    The model above takes numbers to be finite and reads a property of the
    weights object among its own keys.  This part drops both
    simplifications: a number may be NaN or an infinity, and a property read
    follows the prototype chain, so that a key such as [constructor] or
    [__proto__], which every plain object inherits from [Object.prototype],
    reads as defined.  [Agreement] relates the two models.  The two zeros
    are not told apart. *)

(** ** Numbers *)

Module JsNum.

Inductive t := NaN | NegInf | Fin (q : Q) | PosInf.

(** [a < b] *)
Definition lt (a b : t) : bool :=
  match a, b with
  | NaN, _ => false
  | _, NaN => false
  | Fin x, Fin y => negb (Qle_bool y x)
  | NegInf, NegInf => false
  | NegInf, _ => true
  | _, NegInf => false
  | PosInf, _ => false
  | Fin _, PosInf => true
  end.

(** [a <= b] *)
Definition le (a b : t) : bool :=
  match a, b with
  | NaN, _ => false
  | _, NaN => false
  | Fin x, Fin y => Qle_bool x y
  | NegInf, _ => true
  | _, PosInf => true
  | _, NegInf => false
  | PosInf, _ => false
  end.

(** [a === b] *)
Definition eqb (a b : t) : bool :=
  match a, b with
  | Fin x, Fin y => Qeq_bool x y
  | NegInf, NegInf => true
  | PosInf, PosInf => true
  | _, _ => false
  end.

Definition truthy (a : t) : bool :=
  match a with
  | NaN => false
  | Fin x => negb (Qeq_bool x 0)
  | _ => true
  end.

(** [Math.max(a, b)] and [Math.min(a, b)]: NaN as soon as an argument is. *)
Definition Math_max (a b : t) : t :=
  match a, b with
  | NaN, _ => NaN
  | _, NaN => NaN
  | Fin x, Fin y => Fin (Qmax x y)
  | PosInf, _ => PosInf
  | _, PosInf => PosInf
  | NegInf, y => y
  | x, NegInf => x
  end.

Definition Math_min (a b : t) : t :=
  match a, b with
  | NaN, _ => NaN
  | _, NaN => NaN
  | Fin x, Fin y => Fin (Qmin x y)
  | NegInf, _ => NegInf
  | _, NegInf => NegInf
  | PosInf, y => y
  | x, PosInf => x
  end.

Definition neg (a : t) : t :=
  match a with
  | NaN => NaN
  | NegInf => PosInf
  | Fin x => Fin (- x)
  | PosInf => NegInf
  end.

Definition add (a b : t) : t :=
  match a, b with
  | NaN, _ => NaN
  | _, NaN => NaN
  | Fin x, Fin y => Fin (x + y)
  | PosInf, NegInf => NaN
  | NegInf, PosInf => NaN
  | PosInf, _ => PosInf
  | _, PosInf => PosInf
  | NegInf, _ => NegInf
  | _, NegInf => NegInf
  end.

Definition sub (a b : t) : t := add a (neg b).

(** An infinity of the sign of [x], NaN for zero: what an infinity times
    [x] is. *)
Definition scaled (positive : bool) (x : Q) : t :=
  match x ?= 0 with
  | Eq => NaN
  | Gt => if positive then PosInf else NegInf
  | Lt => if positive then NegInf else PosInf
  end.

Definition mul (a b : t) : t :=
  match a, b with
  | NaN, _ => NaN
  | _, NaN => NaN
  | Fin x, Fin y => Fin (x * y)
  | PosInf, Fin y => scaled true y
  | NegInf, Fin y => scaled false y
  | Fin x, PosInf => scaled true x
  | Fin x, NegInf => scaled false x
  | PosInf, PosInf => PosInf
  | NegInf, NegInf => PosInf
  | PosInf, NegInf => NegInf
  | NegInf, PosInf => NegInf
  end.

Definition div (a b : t) : t :=
  match a, b with
  | NaN, _ => NaN
  | _, NaN => NaN
  | Fin x, Fin y => if Qeq_bool y 0 then scaled true x else Fin (x / y)
  | Fin _, _ => Fin 0
  | PosInf, Fin y => if Qle_bool 0 y then PosInf else NegInf
  | NegInf, Fin y => if Qle_bool 0 y then NegInf else PosInf
  | _, _ => NaN
  end.

(** [Math.round] *)
Definition Math_round (a : t) : t :=
  match a with
  | Fin x => Fin (inject_Z (Qfloor (x + (1 # 2))))
  | other => other
  end.

(** [String(a)], as a template literal renders a number: given for NaN,
    the infinities and the integers below 10^21 in size, which print in
    decimal. *)
Definition String_of_number (a : t) : option string :=
  match a with
  | NaN => Some "NaN"
  | PosInf => Some "Infinity"
  | NegInf => Some "-Infinity"
  | Fin x =>
      let n := Qnum (Qred x) in
      if Pos.eqb (Qden (Qred x)) 1 && Z.ltb (Z.abs n) (10 ^ 21)
      then Some (pretty n) else None
  end.

(** The number is a finite one in [0,100]. *)
Definition inRange (a : t) : Prop :=
  match a with
  | Fin x => 0 <= x /\ x <= 100
  | _ => False
  end.

End JsNum.

(** ** Objects *)

Module JsObject.

(** The primitive values that the fields of a weight entry hold. *)
Inductive prim := PStr (s : string) | PNum (n : JsNum.t) | PBool (b : bool).

(** An object written as a literal in the store: its own properties; its
    prototype is [Object.prototype]. *)
Abbreviation entry := (gmap string prim).

(** What a plain object inherits: [Object.prototype] itself, which the
    [__proto__] accessor returns, and its methods. *)
Inductive builtin := ObjectPrototype | Method (name : string).

Inductive value :=
| VEntry (e : entry)
| VBuiltin (b : builtin)
| VPrim (p : prim).

(** The data properties of [Object.prototype], all of them functions. *)
Definition methodNames : list string :=
  [ "constructor"; "__defineGetter__"; "__defineSetter__"; "hasOwnProperty";
    "__lookupGetter__"; "__lookupSetter__"; "isPrototypeOf";
    "propertyIsEnumerable"; "toString"; "valueOf"; "toLocaleString" ].

Definition isMethod (k : string) : bool := bool_decide (k ∈ methodNames).

(** A key that [Object.prototype] does not define. *)
Definition plainKey (k : string) : Prop :=
  k ≠ "__proto__" /\ k ∉ methodNames.

(** The weights object: its own properties, and its prototype, which is
    [Object.prototype] ([None]) unless an assignment to [__proto__] has
    replaced it by an entry. *)
Record t := mk { own : gmap string value; proto : option entry }.

Definition empty : t := mk ∅ None.

Definition prototypeOf (o : t) : value :=
  match proto o with
  | Some e => VEntry e
  | None => VBuiltin ObjectPrototype
  end.

(** [o[k]]: an own property, else a property of the prototype entry, else
    a member of [Object.prototype]; [None] is [undefined]. *)
Definition get (o : t) (k : string) : option value :=
  match own o !! k with
  | Some v => Some v
  | None =>
      match proto o ≫= (λ e, e !! k) with
      | Some p => Some (VPrim p)
      | None =>
          if String.eqb k "__proto__" then Some (prototypeOf o)
          else if isMethod k then Some (VBuiltin (Method k))
          else None
      end
  end.

Definition truthy_prim (p : prim) : bool :=
  match p with
  | PStr s => truthy_str s
  | PNum n => JsNum.truthy n
  | PBool b => b
  end.

(** Truthiness of what a read gives: [undefined] is falsy, an object or a
    function is truthy. *)
Definition truthy (v : option value) : bool :=
  match v with
  | None => false
  | Some (VPrim p) => truthy_prim p
  | Some _ => true
  end.

Definition truthy_field (p : option prim) : bool :=
  match p with
  | None => false
  | Some p => truthy_prim p
  end.

(** The own enumerable properties of a string: its characters by index. *)
Definition characters (s : string) : entry :=
  list_to_map
    (imap (λ i c, (pretty i, PStr (String c EmptyString)))
          (String.list_ascii_of_string s)).

(** [{...v}]: the own enumerable properties of [v]: those of an entry, the
    characters of a string, none for a built-in, a number or a boolean. *)
Definition spread (v : value) : entry :=
  match v with
  | VEntry e => e
  | VPrim (PStr s) => characters s
  | _ => ∅
  end.

(** [v.enabled], [v.weight]: an own field of an entry; nothing else that
    the store reads has these fields. *)
Definition field (v : value) (name : string) : option prim :=
  match v with
  | VEntry e => e !! name
  | _ => None
  end.

(** [{...o, [k]: v}]: a fresh object with the own properties of [o] and
    [k] defined to [v]; its prototype is [Object.prototype]. *)
Definition withKey (o : t) (k : string) (v : value) : t :=
  mk (<[k := v]> (own o)) None.

(** [o[k] = v].  The key [__proto__], unless it is an own property or one
    of the prototype entry, reaches the setter of [Object.prototype]: an
    object becomes the prototype and no own property is added (a built-in
    function as prototype does not arise and is read as
    [Object.prototype]); any other value is ignored. *)
Definition assign (k : string) (v : value) (o : t) : t :=
  if bool_decide (is_Some (own o !! k))
     || bool_decide (is_Some (proto o ≫= (λ e, e !! k)))
     || negb (String.eqb k "__proto__")
  then mk (<[k := v]> (own o)) (proto o)
  else
    match v with
    | VEntry e => mk (own o) (Some e)
    | VBuiltin _ => mk (own o) None
    | VPrim _ => o
    end.

End JsObject.

(** ** The filter store over JavaScript values *)

Module JsStore.
Import JsObject.

Record Category := {
  id : string;
  name : string;
  description : string;
  icon : string;
  unit : option string;
  weightDefault : JsNum.t;
  datasetId : string
}.

Record Range := { min : JsNum.t; max : JsNum.t; enabled : bool }.

Record t := mk {
  weights : JsObject.t;
  minScore : JsNum.t;
  population : Range;
  searchQuery : string;
  departements : list string;
  regions : list string;
  categoriesLoaded : bool
}.

Definition createDefaultFilterState : t :=
  mk JsObject.empty (JsNum.Fin 0)
     {| min := JsNum.Fin 0; max := JsNum.Fin 1000000; enabled := false |}
     "" [] [] false.

Definition set_weights (w : JsObject.t) (s : t) : t :=
  mk w (minScore s) (population s) (searchQuery s) (departements s)
     (regions s) (categoriesLoaded s).

(** [{ id, weight, enabled }] *)
Definition config (id : string) (weight : JsNum.t) (enabled : bool) : entry :=
  <["id" := PStr id]>
    (<["weight" := PNum weight]> (<["enabled" := PBool enabled]> ∅)).

(** One iteration of the loop of [initializeFromCategories]. *)
Definition initEntry (currentWeights : JsObject.t) (newWeights : JsObject.t)
    (category : Category) : JsObject.t :=
  match get currentWeights (id category) with
  | Some existing => assign (id category) existing newWeights
  | None =>
      assign (id category)
        (VEntry (config (id category) (weightDefault category) true))
        newWeights
  end.

Definition initializeFromCategories (categories : list Category) (s : t) : t :=
  let currentWeights := weights s in
  let newWeights := foldl (initEntry currentWeights) JsObject.empty categories in
  mk newWeights (minScore s) (population s) (searchQuery s)
     (departements s) (regions s) true.

(** [Math.max(0, Math.min(100, x))] *)
Definition clamp (x : JsNum.t) : JsNum.t :=
  JsNum.Math_max (JsNum.Fin 0) (JsNum.Math_min (JsNum.Fin 100) x).

Definition setWeight (filterId : string) (weight : JsNum.t) (s : t) : t :=
  match get (weights s) filterId with
  | Some read =>
      if truthy (Some read)
      then set_weights
             (withKey (weights s) filterId
                (VEntry (<["weight" := PNum (clamp weight)]> (spread read))))
             s
      else s
  | None => s
  end.

Definition toggleFilter (filterId : string) (s : t) : t :=
  match get (weights s) filterId with
  | Some read =>
      if truthy (Some read)
      then set_weights
             (withKey (weights s) filterId
                (VEntry (<["enabled" :=
                             PBool (negb (truthy_field (field read "enabled")))]>
                           (spread read))))
             s
      else s
  | None => s
  end.

Definition setMinScore (score : JsNum.t) (s : t) : t :=
  mk (weights s) (clamp score) (population s) (searchQuery s)
     (departements s) (regions s) (categoriesLoaded s).

Definition set_population (p : Range) (s : t) : t :=
  mk (weights s) (minScore s) p (searchQuery s) (departements s)
     (regions s) (categoriesLoaded s).

Definition setPopulationRange (lo hi : JsNum.t) (s : t) : t :=
  set_population
    {| min := JsNum.Math_max (JsNum.Fin 0) lo;
       max := JsNum.Math_max lo hi;
       enabled := enabled (population s) |} s.

Definition togglePopulationFilter (s : t) : t :=
  set_population
    {| min := min (population s);
       max := max (population s);
       enabled := negb (enabled (population s)) |} s.

Definition setSearchQuery (query : string) (s : t) : t :=
  mk (weights s) (minScore s) (population s) query (departements s)
     (regions s) (categoriesLoaded s).

Definition setDepartements (codes : list string) (s : t) : t :=
  mk (weights s) (minScore s) (population s) (searchQuery s) codes
     (regions s) (categoriesLoaded s).

Definition setRegions (codes : list string) (s : t) : t :=
  mk (weights s) (minScore s) (population s) (searchQuery s)
     (departements s) codes (categoriesLoaded s).

(** The body of the loop of [resetFilters]:
    [resetWeights[id] = { ...config, weight: 50, enabled: true }]. *)
Definition resetEntry (id : string) (read : value) (resetWeights : JsObject.t)
    : JsObject.t :=
  assign id
    (VEntry (<["enabled" := PBool true]>
               (<["weight" := PNum (JsNum.Fin 50)]> (spread read))))
    resetWeights.

Definition resetFilters (s : t) : t :=
  let resetWeights := map_fold resetEntry JsObject.empty (own (weights s)) in
  mk resetWeights (JsNum.Fin 0)
     {| min := JsNum.Fin 0; max := JsNum.Fin 1000000; enabled := false |}
     "" [] [] (categoriesLoaded s).

(** The body of the loop of [getEnabledWeights].  The result holds numbers,
    or [undefined] ([None]) for a value without a weight; assigning one to
    the key [__proto__] reaches the setter, which ignores it. *)
Definition enabledEntry (filterId : string) (read : value)
    (enabledWeights : gmap string (option prim)) : gmap string (option prim) :=
  if String.eqb filterId "__proto__" then enabledWeights
  else if truthy_field (field read "enabled")
  then <[filterId := field read "weight"]> enabledWeights
  else <[filterId := Some (PNum (JsNum.Fin 0))]> enabledWeights.

Definition getEnabledWeights (s : t) : gmap string (option prim) :=
  map_fold enabledEntry ∅ (own (weights s)).

Inductive Action :=
| InitializeFromCategories (categories : list Category)
| SetWeight (filterId : string) (weight : JsNum.t)
| ToggleFilter (filterId : string)
| SetMinScore (score : JsNum.t)
| SetPopulationRange (lo hi : JsNum.t)
| TogglePopulationFilter
| SetSearchQuery (query : string)
| SetDepartements (codes : list string)
| SetRegions (codes : list string)
| ResetFilters.

Definition dispatch (a : Action) (s : t) : t :=
  match a with
  | InitializeFromCategories categories => initializeFromCategories categories s
  | SetWeight filterId weight => setWeight filterId weight s
  | ToggleFilter filterId => toggleFilter filterId s
  | SetMinScore score => setMinScore score s
  | SetPopulationRange lo hi => setPopulationRange lo hi s
  | TogglePopulationFilter => togglePopulationFilter s
  | SetSearchQuery query => setSearchQuery query s
  | SetDepartements codes => setDepartements codes s
  | SetRegions codes => setRegions codes s
  | ResetFilters => resetFilters s
  end.

Definition run (actions : list Action) (s : t) : t :=
  foldl (λ st a, dispatch a st) s actions.

(** The effect of the filter panel that initialises the weights. *)
Definition categoriesEffect (categories : option (list Category)) (s : t) : t :=
  match categories with
  | Some cats =>
      if nonempty cats && negb (categoriesLoaded s)
      then initializeFromCategories cats s
      else s
  | None => s
  end.

End JsStore.

(** ** Sample data *)

Module Samples.

Definition proximite_mer : FilterCategory.t :=
  {| FilterCategory.id := "proximite_mer";
     FilterCategory.name := "Proximite a la mer";
     FilterCategory.description := "Distance au littoral";
     FilterCategory.icon := "sea";
     FilterCategory.unit := Some "km";
     FilterCategory.weightDefault := 80;
     FilterCategory.datasetId := "littoral" |}.

Definition climat : FilterCategory.t :=
  {| FilterCategory.id := "climat";
     FilterCategory.name := "Climat";
     FilterCategory.description := "Ensoleillement";
     FilterCategory.icon := "sun";
     FilterCategory.unit := None;
     FilterCategory.weightDefault := 70;
     FilterCategory.datasetId := "meteo" |}.

(** The store once the two categories are loaded. *)
Definition loaded : FilterState.t :=
  Store.initializeFromCategories [proximite_mer; climat]
    createDefaultFilterState.

(** A session: load, push a weight past the top, switch a filter off,
    hand over a reversed population range, reset, push a weight below 0. *)
Definition session : list Store.Action :=
  [ Store.InitializeFromCategories [proximite_mer; climat];
    Store.SetWeight "climat" 150;
    Store.ToggleFilter "proximite_mer";
    Store.SetPopulationRange 10 5;
    Store.ResetFilters;
    Store.SetWeight "proximite_mer" (-3) ].

Definition weightVector : gmap string number :=
  <["proximite_mer" := 80]> (<["climat" := 70]> (<["acces_soins" := 60]> ∅)).

(** Filters that leave the page size out, and filters that ask for 0. *)
Definition noLimit : SearchFilters.t :=
  Hooks.useSearchCommunes_filters weightVector loaded.

Definition zeroLimit : SearchFilters.t :=
  {| SearchFilters.weights := weightVector;
     SearchFilters.minScore := Some 50;
     SearchFilters.populationMin := None;
     SearchFilters.populationMax := None;
     SearchFilters.departements := Some ["69"];
     SearchFilters.regions := None;
     SearchFilters.searchQuery := Some "Lyon";
     SearchFilters.bounds := None;
     SearchFilters.limit := Some 0;
     SearchFilters.offset := Some 20 |}.

(** A commune with two scored criteria, and one that no dataset covers. *)
Definition lyon : Scoring.Commune :=
  {| Scoring.codeInsee := "69123";
     Scoring.nom := "Lyon";
     Scoring.population := 522250%N;
     Scoring.scores := <["proximite_mer" := 20]> (<["climat" := 65]> ∅) |}.

Definition uncovered : Scoring.Commune :=
  {| Scoring.codeInsee := "01001";
     Scoring.nom := "L'Abergement-Clemenciat";
     Scoring.population := 779%N;
     Scoring.scores := ∅ |}.

(** A map feature whose properties carry a code but no score. *)
Definition unscoredFeature : option MapContainer.Feature :=
  Some {| MapContainer.properties :=
            Some {| MapContainer.score_global := None;
                    MapContainer.code_insee := Some "01001" |} |}.

End Samples.

(** ** The colour scale over JavaScript values (frontend/src/lib/utils.ts) *)

Module JsColor.
Import Utils.

(** The loop of [interpolateScoreColor], its comparisons on JavaScript
    numbers: with NaN for [s] no pair of stops is found. *)
Fixpoint findStops (s : JsNum.t) (l : list ColorStop)
    : option (ColorStop * ColorStop) :=
  match l with
  | currentStop :: ((nextStop :: _) as rest) =>
      if JsNum.le (JsNum.Fin (pos currentStop)) s
         && JsNum.le s (JsNum.Fin (pos nextStop))
      then Some (currentStop, nextStop)
      else findStops s rest
  | _ => None
  end.

(** One channel: [Math.round(lower + (upper - lower) * factor)]. *)
Definition channel (lower upper : number) (factor : JsNum.t) : JsNum.t :=
  JsNum.Math_round
    (JsNum.add (JsNum.Fin lower)
       (JsNum.mul (JsNum.sub (JsNum.Fin upper) (JsNum.Fin lower)) factor)).

(** The three channels that [interpolateScoreColor] computes; [None] is
    the branch that returns the grey fallback. *)
Definition interpolateScoreChannels (score : JsNum.t)
    : option (JsNum.t * JsNum.t * JsNum.t) :=
  let s := JsNum.Math_max (JsNum.Fin 0) (JsNum.Math_min (JsNum.Fin 100) score) in
  let found := findStops s stops in
  let lower :=
    match found with Some (currentStop, _) => Some currentStop
                   | None => head stops end in
  let upper :=
    match found with Some (_, nextStop) => Some nextStop
                   | None => last stops end in
  match lower, upper with
  | Some lower, Some upper =>
      let range := JsNum.sub (JsNum.Fin (pos upper)) (JsNum.Fin (pos lower)) in
      let factor :=
        if JsNum.lt (JsNum.Fin 0) range
        then JsNum.div (JsNum.sub s (JsNum.Fin (pos lower))) range
        else JsNum.Fin 0 in
      Some (channel (r lower) (r upper) factor,
            channel (g lower) (g upper) factor,
            channel (b lower) (b upper) factor)
  | _, _ => None
  end.

(** The template string [rgb(r, g, b)]. *)
Definition rgb (c : JsNum.t * JsNum.t * JsNum.t) : option string :=
  red ← JsNum.String_of_number c.1.1;
  green ← JsNum.String_of_number c.1.2;
  blue ← JsNum.String_of_number c.2;
  Some ("rgb(" +:+ red +:+ ", " +:+ green +:+ ", " +:+ blue +:+ ")").

Definition interpolateScoreColor (score : JsNum.t) : option string :=
  match interpolateScoreChannels score with
  | Some c => rgb c
  | None => Some "rgb(148, 163, 184)"
  end.

(** The channel is the integer [z]. *)
Definition integer (z : Z) : JsNum.t := JsNum.Fin (inject_Z z).

End JsColor.

(** ** The two models of the store side by side *)

Module Agreement.
Import JsObject.

(** A weight configuration, a range, a category, a state and an action of
    the model over rationals, as values of the model over JavaScript
    values. *)
Definition entry_of (c : WeightConfig.t) : value :=
  VEntry (JsStore.config (WeightConfig.id c)
            (JsNum.Fin (WeightConfig.weight c)) (WeightConfig.enabled c)).

Definition weights_of (w : gmap string WeightConfig.t) : JsObject.t :=
  JsObject.mk (entry_of <$> w) None.

Definition range_of (p : RangeFilter.t) : JsStore.Range :=
  {| JsStore.min := JsNum.Fin (RangeFilter.min p);
     JsStore.max := JsNum.Fin (RangeFilter.max p);
     JsStore.enabled := RangeFilter.enabled p |}.

Definition state_of (s : FilterState.t) : JsStore.t :=
  JsStore.mk (weights_of (FilterState.weights s))
    (JsNum.Fin (FilterState.minScore s))
    (range_of (FilterState.population s))
    (FilterState.searchQuery s) (FilterState.departements s)
    (FilterState.regions s) (FilterState.categoriesLoaded s).

Definition category_of (c : FilterCategory.t) : JsStore.Category :=
  {| JsStore.id := FilterCategory.id c;
     JsStore.name := FilterCategory.name c;
     JsStore.description := FilterCategory.description c;
     JsStore.icon := FilterCategory.icon c;
     JsStore.unit := FilterCategory.unit c;
     JsStore.weightDefault := JsNum.Fin (FilterCategory.weightDefault c);
     JsStore.datasetId := FilterCategory.datasetId c |}.

Definition action_of (a : Store.Action) : JsStore.Action :=
  match a with
  | Store.InitializeFromCategories categories =>
      JsStore.InitializeFromCategories (category_of <$> categories)
  | Store.SetWeight filterId weight =>
      JsStore.SetWeight filterId (JsNum.Fin weight)
  | Store.ToggleFilter filterId => JsStore.ToggleFilter filterId
  | Store.SetMinScore score => JsStore.SetMinScore (JsNum.Fin score)
  | Store.SetPopulationRange min max =>
      JsStore.SetPopulationRange (JsNum.Fin min) (JsNum.Fin max)
  | Store.TogglePopulationFilter => JsStore.TogglePopulationFilter
  | Store.SetSearchQuery query => JsStore.SetSearchQuery query
  | Store.SetDepartements codes => JsStore.SetDepartements codes
  | Store.SetRegions codes => JsStore.SetRegions codes
  | Store.ResetFilters => JsStore.ResetFilters
  end.

(** A weight sent with a request. *)
Definition sent_of (weight : number) : option prim :=
  Some (PNum (JsNum.Fin weight)).

(** The filter ids that an action names, and those that a state holds, are
    not defined by [Object.prototype]. *)
Definition plainAction (a : Store.Action) : Prop :=
  match a with
  | Store.InitializeFromCategories categories =>
      Forall (λ c, plainKey (FilterCategory.id c)) categories
  | Store.SetWeight filterId _ => plainKey filterId
  | Store.ToggleFilter filterId => plainKey filterId
  | _ => True
  end.

Definition plainState (s : FilterState.t) : Prop :=
  ∀ k, is_Some (FilterState.weights s !! k) → plainKey k.

End Agreement.

(** ** Predicates on the store over JavaScript values *)

Module JsProps.
Import JsObject JsStore.

Definition categoryIds (categories : list Category) : list string :=
  id <$> categories.

(** A value of the weights object is a weight entry: an object with a
    number for its weight and a boolean for its enabled flag. *)
Definition weightEntry (v : value) : Prop :=
  ∃ e n b, v = VEntry e
           /\ e !! "weight" = Some (PNum n)
           /\ e !! "enabled" = Some (PBool b).

(** It is a weight entry whose weight is a finite number in [0,100]. *)
Definition weightInRange (v : value) : Prop :=
  ∃ e n b, v = VEntry e
           /\ e !! "weight" = Some (PNum n) /\ JsNum.inRange n
           /\ e !! "enabled" = Some (PBool b).

(** A store of weight entries: a plain weights object, holding weight
    entries in range under keys that [Object.prototype] does not define. *)
Definition wellFormed (s : t) : Prop :=
  proto (weights s) = None
  /\ ∀ k v, own (weights s) !! k = Some v → plainKey k /\ weightInRange v.

(** What the weight invariant assumes of an action: the ids it names are
    not defined by [Object.prototype], the default weights are in [0,100],
    and the weight handed to [setWeight] is not NaN. *)
Definition categoryOk (category : Category) : Prop :=
  plainKey (id category) /\ JsNum.inRange (weightDefault category).

Definition actionOk (a : Action) : Prop :=
  match a with
  | InitializeFromCategories categories => Forall categoryOk categories
  | SetWeight filterId weight => plainKey filterId /\ weight ≠ JsNum.NaN
  | ToggleFilter filterId => plainKey filterId
  | _ => True
  end.

(** The id of the category is not defined by [Object.prototype]. *)
Definition plainId (category : Category) : Prop := plainKey (id category).

(** The number of [0,100] nearest to [x]; NaN for NaN. *)
Definition nearestInRange (x : JsNum.t) : JsNum.t :=
  match x with
  | JsNum.NaN => JsNum.NaN
  | JsNum.NegInf => JsNum.Fin 0
  | JsNum.PosInf => JsNum.Fin 100
  | JsNum.Fin q =>
      JsNum.Fin (if Qle_bool q 0 then 0 else if Qle_bool 100 q then 100 else q)
  end.

(** The own properties of a weights object are weight entries in range
    under keys that [Object.prototype] does not define. *)
Definition entriesOk (o : JsObject.t) : Prop :=
  ∀ k v, own o !! k = Some v → plainKey k /\ weightInRange v.


(** The lower bound handed to [setPopulationRange] is moreover not
    negative. *)
Definition nonnegRange (a : Action) : Prop :=
  match a with
  | SetPopulationRange lo hi =>
      JsNum.le (JsNum.Fin 0) lo = true /\ hi ≠ JsNum.NaN
  | _ => True
  end.

Definition minScoreInRange (s : t) : Prop := JsNum.inRange (minScore s).

Definition lowerBoundNonneg (s : t) : Prop :=
  JsNum.le (JsNum.Fin 0) (min (population s)) = true.


End JsProps.

(** ** Sample data over JavaScript values *)

Module JsSamples.
Import JsObject JsStore.

Definition climat : Category :=
  {| id := "climat"; name := "Climat"; description := "Ensoleillement";
     icon := "sun"; unit := None; weightDefault := JsNum.Fin 70;
     datasetId := "meteo" |}.

Definition proximite_mer : Category :=
  {| id := "proximite_mer"; name := "Proximite a la mer";
     description := "Distance au littoral"; icon := "sea";
     unit := Some "km"; weightDefault := JsNum.Fin 80;
     datasetId := "littoral" |}.

(** A category whose id is the name of a method of [Object.prototype]. *)
Definition toString : Category :=
  {| id := "toString"; name := "Texte"; description := "Texte";
     icon := "text"; unit := None; weightDefault := JsNum.Fin 70;
     datasetId := "texte" |}.

Definition loaded : t :=
  initializeFromCategories [proximite_mer; climat] createDefaultFilterState.

Definition session : list Action :=
  [ InitializeFromCategories [proximite_mer; climat];
    SetWeight "climat" JsNum.PosInf;
    ToggleFilter "proximite_mer";
    SetMinScore (JsNum.Fin 250);
    SetPopulationRange (JsNum.Fin 10) (JsNum.Fin 5);
    ResetFilters;
    SetWeight "proximite_mer" (JsNum.Fin (-3)) ].

End JsSamples.

(** * Properties *)

(** ** Numbers *)

Lemma clamp_in_range (x : number) :
  0 <= Math_max 0 (Math_min 100 x) /\ Math_max 0 (Math_min 100 x) <= 100.
Proof.
  unfold Math_max, Math_min. split.
  - apply Q.le_max_l.
  - apply Q.max_lub; [lra | apply Q.le_min_l].
Qed.

Lemma num_eqb_refl (x : number) : num_eqb x x = true.
Proof. apply Qeq_bool_iff. reflexivity. Qed.

Lemma truthy_num_false (n : number) : n == 0 → truthy_num n = false.
Proof.
  intros H. unfold truthy_num, num_eqb.
  apply Qeq_bool_iff in H. by rewrite H.
Qed.

Lemma or_num_nonzero (x : option number) (d : number) :
  ¬ d == 0 → ¬ or_num x d == 0.
Proof.
  intros Hd. destruct x as [n|]; simpl; [|done].
  destruct (truthy_num n) eqn:Hn; [|done].
  intros H0. by rewrite (truthy_num_false n H0) in Hn.
Qed.

(** ** The filter store *)

Module StoreFacts.
Import FilterState Store.

(** *** The loops over the weights *)

Lemma resetWeights_lookup (w : gmap string WeightConfig.t) (k : string) :
  map_fold resetEntry ∅ w !! k = resetConfig <$> w !! k.
Proof.
  revert k.
  apply (map_fold_weak_ind
           (λ (r m : gmap string WeightConfig.t),
              ∀ k, r !! k = resetConfig <$> m !! k)).
  - intros k. by rewrite !lookup_empty.
  - intros i x m r _ IH k. unfold resetEntry.
    destruct (decide (i = k)) as [->|Hne].
    + by rewrite !lookup_insert_eq.
    + rewrite !lookup_insert_ne by done. apply IH.
Qed.

Lemma resetFilters_weights (s : t) :
  weights (resetFilters s) = resetConfig <$> weights s.
Proof.
  apply map_eq. intros k. rewrite lookup_fmap. apply resetWeights_lookup.
Qed.

Lemma enabledWeights_lookup (w : gmap string WeightConfig.t) (k : string) :
  map_fold enabledEntry ∅ w !! k = effectiveWeight <$> w !! k.
Proof.
  revert k.
  apply (map_fold_weak_ind
           (λ (r : gmap string number) (m : gmap string WeightConfig.t),
              ∀ k, r !! k = effectiveWeight <$> m !! k)).
  - intros k. by rewrite !lookup_empty.
  - intros i [xid xweight xenabled] m r _ IH k.
    unfold enabledEntry, effectiveWeight; simpl.
    destruct (decide (i = k)) as [->|Hne].
    + destruct xenabled; by rewrite !lookup_insert_eq.
    + destruct xenabled; rewrite !lookup_insert_ne by done; apply IH.
Qed.

Lemma anyActiveWeight_none (w : gmap string WeightConfig.t) :
  map_Forall (λ _ config, activeConfig config = false) w →
  anyActiveWeight w = false.
Proof.
  unfold anyActiveWeight.
  apply (map_fold_weak_ind
           (λ (r : bool) (m : gmap string WeightConfig.t),
              map_Forall (λ _ config, activeConfig config = false) m →
              r = false)).
  - done.
  - intros i x m r Hfresh IH Hall.
    apply map_Forall_insert in Hall as [Hx Hm]; [|done].
    by rewrite Hx, (IH Hm).
Qed.

Lemma anyActiveWeight_some (w : gmap string WeightConfig.t) k config :
  w !! k = Some config → activeConfig config = true →
  anyActiveWeight w = true.
Proof.
  intros Hk Hact. revert Hk. unfold anyActiveWeight.
  apply (map_fold_weak_ind
           (λ (r : bool) (m : gmap string WeightConfig.t),
              m !! k = Some config → r = true)).
  - by rewrite lookup_empty.
  - intros i x m r Hfresh IH Hlook.
    destruct (decide (i = k)) as [->|Hne].
    + rewrite lookup_insert_eq in Hlook. injection Hlook as ->.
      by rewrite Hact.
    + rewrite lookup_insert_ne in Hlook by done.
      rewrite (IH Hlook). apply orb_true_r.
Qed.


Lemma anyActiveWeight_false_iff (w : gmap string WeightConfig.t) :
  anyActiveWeight w = false
  ↔ map_Forall (λ _ config, activeConfig config = false) w.
Proof.
  split; [|apply anyActiveWeight_none].
  intros Hnone k config Hk.
  destruct (activeConfig config) eqn:Hact; [|done].
  by rewrite (anyActiveWeight_some w k config Hk Hact) in Hnone.
Qed.

(** Closes [true = false ↔ ...] when one conjunct on the right is absurd. *)
Ltac inactive_absurd :=
  split;
  [ discriminate
  | intros (? & ? & ? & ? & ? & ?);
    first [ discriminate | contradiction | congruence ] ].

(** The configuration that [hasActiveFilters] treats as inactive. *)
Lemma hasActiveFilters_false_iff (s : t) :
  hasActiveFilters s = false
  ↔ map_Forall (λ _ config, activeConfig config = false) (weights s)
    /\ minScore s == 0
    /\ RangeFilter.enabled (population s) = false
    /\ searchQuery s = ""
    /\ departements s = []
    /\ regions s = [].
Proof.
  rewrite <- anyActiveWeight_false_iff. unfold hasActiveFilters, num_eqb.
  destruct (anyActiveWeight (weights s)); [inactive_absurd|].
  destruct (Qeq_bool (minScore s) 0) eqn:Hms; simpl.
  - apply Qeq_bool_iff in Hms.
    destruct (RangeFilter.enabled (population s)); [inactive_absurd|].
    destruct (String.eqb_spec (searchQuery s) ""); simpl; [|inactive_absurd].
    destruct (departements s); simpl; [|inactive_absurd].
    destruct (regions s); simpl; [|inactive_absurd].
    split; [intros _; repeat split; done | done].
  - apply Qeq_bool_neq in Hms. inactive_absurd.
Qed.

(** *** The store on the sample session *)

Example loaded_has_active_filters :
  hasActiveFilters Samples.loaded = true.
Proof. vm_compute. reflexivity. Qed.

Example setWeight_clamps_above :
  WeightConfig.weight
    <$> weights (setWeight "climat" 150 Samples.loaded) !! "climat"
  = Some 100.
Proof. vm_compute. reflexivity. Qed.

Example setWeight_clamps_below :
  WeightConfig.weight
    <$> weights (setWeight "climat" (-3) Samples.loaded) !! "climat"
  = Some 0.
Proof. vm_compute. reflexivity. Qed.

Example disabled_filter_weighs_zero :
  getEnabledWeights (toggleFilter "proximite_mer" Samples.loaded)
    !! "proximite_mer" = Some 0
  /\ getEnabledWeights (toggleFilter "proximite_mer" Samples.loaded)
       !! "climat" = Some 70.
Proof. split; vm_compute; reflexivity. Qed.

Example negative_range_is_not_repaired :
  let p := population (setPopulationRange (-5) (-10) Samples.loaded) in
  RangeFilter.min p == 0 /\ RangeFilter.max p == -5.
Proof. split; vm_compute; reflexivity. Qed.

(** *** The weight invariant, action by action *)

Lemma weightsInRange_default : weightsInRange createDefaultFilterState.
Proof. apply map_Forall_empty. Qed.

Lemma initEntry_in_range current acc category :
  map_Forall (λ _ config, weightInRange config) current →
  categoryOk category →
  map_Forall (λ _ config, weightInRange config) acc →
  map_Forall (λ _ config, weightInRange config) (initEntry current acc category).
Proof.
  intros Hcur Hcat Hacc. unfold initEntry.
  destruct (current !! FilterCategory.id category) as [existing|] eqn:Hex.
  - apply map_Forall_insert_2; [|done]. by apply (Hcur _ _ Hex).
  - apply map_Forall_insert_2; [|done]. exact Hcat.
Qed.

Lemma initLoop_in_range current categories acc :
  map_Forall (λ _ config, weightInRange config) current →
  Forall categoryOk categories →
  map_Forall (λ _ config, weightInRange config) acc →
  map_Forall (λ _ config, weightInRange config)
             (foldl (initEntry current) acc categories).
Proof.
  intros Hcur Hcats. revert acc.
  induction Hcats as [|category categories Hcat _ IH]; intros acc Hacc.
  - done.
  - simpl. apply IH. by apply initEntry_in_range.
Qed.

Lemma initializeFromCategories_in_range categories s :
  Forall categoryOk categories → weightsInRange s →
  weightsInRange (initializeFromCategories categories s).
Proof.
  intros Hcats Hs. unfold weightsInRange, initializeFromCategories; simpl.
  apply initLoop_in_range; [done | done | apply map_Forall_empty].
Qed.

Lemma setWeight_in_range filterId weight s :
  weightsInRange s → weightsInRange (setWeight filterId weight s).
Proof.
  intros Hs. unfold setWeight.
  destruct (weights s !! filterId) as [config|] eqn:Hc; [|done].
  unfold weightsInRange; simpl.
  apply map_Forall_insert_2; [|done]. apply clamp_in_range.
Qed.

Lemma toggleFilter_in_range filterId s :
  weightsInRange s → weightsInRange (toggleFilter filterId s).
Proof.
  intros Hs. unfold toggleFilter.
  destruct (weights s !! filterId) as [config|] eqn:Hc; [|done].
  unfold weightsInRange; simpl.
  apply map_Forall_insert_2; [|done]. exact (Hs _ _ Hc).
Qed.

Lemma resetFilters_in_range s : weightsInRange (resetFilters s).
Proof.
  unfold weightsInRange. rewrite resetFilters_weights.
  apply map_Forall_fmap. intros k config _.
  unfold weightInRange; simpl. lra.
Qed.

Lemma dispatch_in_range a s :
  actionOk a → weightsInRange s → weightsInRange (dispatch a s).
Proof.
  intros Ha Hs. destruct a; simpl in *; try done.
  - by apply initializeFromCategories_in_range.
  - by apply setWeight_in_range.
  - by apply toggleFilter_in_range.
  - apply resetFilters_in_range.
Qed.

Lemma run_in_range actions s :
  Forall actionOk actions → weightsInRange s → weightsInRange (run actions s).
Proof.
  intros Hok. revert s. unfold run.
  induction Hok as [|a actions Ha _ IH]; intros s Hs; simpl.
  - done.
  - apply IH. by apply dispatch_in_range.
Qed.

(** The weight that [setWeight] writes is in range, whatever the state. *)
Lemma setWeight_writes_clamped filterId weight s config :
  is_Some (weights s !! filterId) →
  weights (setWeight filterId weight s) !! filterId = Some config →
  weightInRange config.
Proof.
  intros [old Hold]. unfold setWeight. rewrite Hold; simpl.
  rewrite lookup_insert_eq. intros [= <-]. apply clamp_in_range.
Qed.

(** *** The claims about the store *)

(** C3, as stated, fails: given the malformed pair min = 10, max = 5 the
    store keeps no trace of an error; it replaces the pair by the
    well-formed range (10, 10). *)
Lemma setPopulationRange_corrects_10_5 :
  5 < 10 /\ silentlyCorrected 10 5 createDefaultFilterState.
Proof.
  split; [lra|]. split.
  - intros [_ Hmax]. vm_compute in Hmax. discriminate.
  - vm_compute. discriminate.
Qed.

(** C3, amended: for a pair with min > max and min >= 0,
    [setPopulationRange] signals nothing and stores the range (min, min):
    the lower bound as given, the upper bound raised to it, a well-formed
    range; the enabled flag and every other field of the state are kept. *)
Theorem setPopulationRange_raises_max (min max : number) (s : t)
    (Hbad : max < min) (Hmin : 0 <= min) :
  let s' := setPopulationRange min max s in
  RangeFilter.min (population s') == min
  /\ RangeFilter.max (population s') == min
  /\ wellFormed (population s')
  /\ RangeFilter.enabled (population s') = RangeFilter.enabled (population s)
  /\ set_population (population s') s = s'.
Proof.
  unfold setPopulationRange, wellFormed, Math_max; simpl.
  assert (Qmax 0 min == min) as H1 by (apply Q.max_r; lra).
  assert (Qmax min max == min) as H2 by (apply Q.max_l; lra).
  repeat split; try done. rewrite H1, H2. lra.
Qed.

Lemma setPopulationRange_raises_max_witness :
  5 < 10 /\ 0 <= 10
  /\ (let s' := setPopulationRange 10 5 createDefaultFilterState in
      RangeFilter.min (population s') == 10
      /\ RangeFilter.max (population s') == 10
      /\ wellFormed (population s')
      /\ RangeFilter.enabled (population s')
         = RangeFilter.enabled (population createDefaultFilterState)
      /\ set_population (population s') createDefaultFilterState = s').
Proof.
  assert (5 < 10) as Hbad by reflexivity.
  assert (0 <= 10) as Hmin by (vm_compute; discriminate).
  split; [exact Hbad|]. split; [exact Hmin|].
  exact (setPopulationRange_raises_max 10 5 createDefaultFilterState Hbad Hmin).
Defined.



End StoreFacts.

(** ** The API client and the search hook *)

Module ApiFacts.

(** C5: for every [SearchFilters] value the body that [searchGeoJSON]
    posts carries the same predicate as the body that [searchCommunes]
    posts: the eight predicate fields are equal. *)
Theorem geojson_same_predicate (filters : SearchFilters.t) (simplified : bool) :
  let search := Request.body (Api.searchCommunes filters) in
  let geojson := Request.body (Api.searchGeoJSON filters simplified) in
  SearchBody.weights geojson = SearchBody.weights search
  /\ SearchBody.min_score geojson = SearchBody.min_score search
  /\ SearchBody.population_min geojson = SearchBody.population_min search
  /\ SearchBody.population_max geojson = SearchBody.population_max search
  /\ SearchBody.departements geojson = SearchBody.departements search
  /\ SearchBody.regions geojson = SearchBody.regions search
  /\ SearchBody.search_query geojson = SearchBody.search_query search
  /\ SearchBody.bounds geojson = SearchBody.bounds search.
Proof. simpl. repeat split. Qed.


(** C10: whenever the caller's limit is undefined or 0, [searchCommunes]
    sends limit 50 and [searchGeoJSON] sends limit 500; whatever the
    filters, [searchGeoJSON] sends offset 0 and neither request asks for a
    page of size 0. *)
Theorem pagination_defaults :
  (∀ filters simplified,
     SearchFilters.limit filters = None
     ∨ (∃ n, SearchFilters.limit filters = Some n /\ n == 0) →
     SearchBody.limit (Request.body (Api.searchCommunes filters)) = 50
     /\ SearchBody.limit (Request.body (Api.searchGeoJSON filters simplified))
        = 500)
  /\ (∀ filters simplified,
        SearchBody.offset (Request.body (Api.searchGeoJSON filters simplified))
        = 0)
  /\ (∀ filters simplified,
        ¬ SearchBody.limit (Request.body (Api.searchCommunes filters)) == 0
        /\ ¬ SearchBody.limit
               (Request.body (Api.searchGeoJSON filters simplified)) == 0).
Proof.
  split; [|split].
  - intros filters simplified Hfalsy; simpl.
    destruct Hfalsy as [-> | (n & -> & Hn)]; simpl; [done|].
    by rewrite (truthy_num_false n Hn).
  - done.
  - intros filters simplified; simpl.
    split; apply or_num_nonzero; intros H; vm_compute in H; discriminate.
Qed.

Example hook_filters_get_defaults :
  SearchBody.limit (Request.body (Api.searchCommunes Samples.noLimit)) = 50
  /\ SearchBody.limit (Request.body (Api.searchGeoJSON Samples.noLimit true))
     = 500
  /\ Request.endpoint (Api.searchGeoJSON Samples.noLimit true)
     = "/geojson/communes/search?simplified=true".
Proof. repeat split. Qed.

Example zero_limit_offset :
  SearchBody.offset (Request.body (Api.searchCommunes Samples.zeroLimit)) = 20
  /\ SearchBody.offset
       (Request.body (Api.searchGeoJSON Samples.zeroLimit false)) = 0.
Proof. split; reflexivity. Qed.

Lemma pagination_defaults_witness :
  (SearchFilters.limit Samples.zeroLimit = None
   ∨ (∃ n, SearchFilters.limit Samples.zeroLimit = Some n /\ n == 0))
  /\ SearchBody.limit (Request.body (Api.searchCommunes Samples.zeroLimit)) = 50
  /\ SearchBody.limit
       (Request.body (Api.searchGeoJSON Samples.zeroLimit true)) = 500.
Proof.
  assert (SearchFilters.limit Samples.zeroLimit = None
          ∨ (∃ n, SearchFilters.limit Samples.zeroLimit = Some n /\ n == 0))
    as Hfalsy by (right; exists 0; split; reflexivity).
  split; [exact Hfalsy|].
  exact (proj1 pagination_defaults Samples.zeroLimit true Hfalsy).
Defined.

End ApiFacts.

(** ** The scoring contract and the map style callback *)

Module ScoringFacts.
Import Scoring.

Lemma totals_noData commune weightVector :
  noData commune weightVector → totals commune weightVector = (0, 0).
Proof.
  unfold noData, totals.
  apply (map_fold_weak_ind
           (λ r m, (∀ id, is_Some (m !! id) → scores commune !! id = None)
                   → r = (0, 0))).
  - done.
  - intros i w m r Hfresh IH Hnone. unfold accumulate.
    rewrite (Hnone i) by (rewrite lookup_insert_eq; eauto).
    destruct (Qle_bool w 0); apply IH; intros id Hid; apply Hnone;
      (destruct (decide (i = id)) as [->|Hne];
       [rewrite lookup_insert_eq; eauto | by rewrite lookup_insert_ne]).
Qed.

Lemma accumulate_bounded commune id w r :
  validScores commune → boundedTotals r →
  boundedTotals (accumulate commune id w r).
Proof.
  intros Hs (Hd & Hn0 & Hn). unfold accumulate.
  destruct (Qle_bool w 0) eqn:Hw; [done|].
  destruct (scores commune !! id) as [x|] eqn:Hx; [|done].
  assert (0 < w) as Hpos.
  { apply Qnot_le_lt. intros Hle. apply Qle_bool_iff in Hle. congruence. }
  destruct (Hs id x Hx) as [Hx0 Hx100].
  assert (0 <= w * x) by (apply Qmult_le_0_compat; lra).
  assert (0 <= w * (100 - x)) by (apply Qmult_le_0_compat; lra).
  unfold boundedTotals; simpl. repeat split; lra.
Qed.

Lemma totals_bounded commune weightVector :
  validScores commune → boundedTotals (totals commune weightVector).
Proof.
  intros Hs. unfold totals.
  apply (map_fold_weak_ind (λ r _, boundedTotals r)).
  - unfold boundedTotals; simpl. lra.
  - intros i w m r _ IH. by apply accumulate_bounded.
Qed.

Lemma accumulate_denominator commune id w r :
  0 <= r.2 → r.2 <= (accumulate commune id w r).2.
Proof.
  intros Hd. unfold accumulate.
  destruct (Qle_bool w 0) eqn:Hw; [lra|].
  destruct (scores commune !! id); [|lra].
  assert (0 < w) as Hpos.
  { apply Qnot_le_lt. intros Hle. apply Qle_bool_iff in Hle. congruence. }
  simpl. lra.
Qed.

(** A criterion with a positive weight and data makes the denominator
    positive: the composite is then the weighted mean, not the fallback. *)
Lemma totals_denominator_pos commune weightVector id w x :
  weightVector !! id = Some w → 0 < w → scores commune !! id = Some x →
  0 < (totals commune weightVector).2.
Proof.
  intros Hid Hw Hx.
  enough (0 <= (totals commune weightVector).2 ∧
          (weightVector !! id = Some w → 0 < (totals commune weightVector).2))
    as [_ H] by auto.
  clear Hid. unfold totals.
  apply (map_fold_weak_ind (λ r m, 0 <= r.2 ∧ (m !! id = Some w → 0 < r.2))).
  - split; [simpl; lra | by rewrite lookup_empty].
  - intros i w' m r Hfresh [Hnn IH].
    pose proof (accumulate_denominator commune i w' r Hnn) as Hmono.
    split; [lra|]. intros Hlook.
    destruct (decide (i = id)) as [->|Hne].
    + rewrite lookup_insert_eq in Hlook. injection Hlook as ->.
      unfold accumulate. rewrite Hx.
      destruct (Qle_bool w 0) eqn:Hle.
      * apply Qle_bool_iff in Hle. lra.
      * simpl. lra.
    + rewrite lookup_insert_ne in Hlook by done. specialize (IH Hlook). lra.
Qed.

Lemma composite_weighted_mean commune weightVector :
  0 < (totals commune weightVector).2 →
  composite commune weightVector ==
  (totals commune weightVector).1 / (totals commune weightVector).2.
Proof.
  intros Hpos. unfold composite.
  destruct (totals commune weightVector) as [n d]; simpl in *.
  destruct (num_eqb d 0) eqn:Hd; [|reflexivity].
  apply Qeq_bool_iff in Hd. lra.
Qed.

Lemma composite_bounded commune weightVector :
  validScores commune → inRange (composite commune weightVector).
Proof.
  intros Hs. pose proof (totals_bounded commune weightVector Hs) as Hb.
  unfold composite, inRange.
  destruct (totals commune weightVector) as [n d].
  destruct Hb as (Hd & Hn0 & Hn); simpl in *.
  destruct (num_eqb d 0) eqn:Hz; [lra|].
  assert (0 < d) as Hpos.
  { apply Qle_lt_or_eq in Hd as [?|Heq]; [done|].
    assert (num_eqb d 0 = true) as Ht
      by (apply Qeq_bool_iff; by symmetry).
    congruence. }
  split.
  - apply Qle_shift_div_l; [done | lra].
  - apply Qle_shift_div_r; [done | lra].
Qed.

(** C1: a commune with no data for any criterion of the weight vector
    gets the neutral composite 50 from the scoring operation (a value, not
    an error, and not 0), and the map style callback takes a feature that
    carries no [score_global] to have score 50. *)
Theorem neutral_midpoint (commune : Commune)
    (weightVector : gmap string number)
    (feature : option MapContainer.Feature)
    (Hnone : noData commune weightVector)
    (Hmissing : MapContainer.props_score_global feature = None) :
  (score commune weightVector).2 = 50
  /\ ¬ (score commune weightVector).2 == 0
  /\ MapContainer.styleScore feature = 50.
Proof.
  assert ((score commune weightVector).2 = 50) as Hfifty.
  { simpl. unfold composite. by rewrite (totals_noData _ _ Hnone). }
  split; [exact Hfifty|]. split.
  - rewrite Hfifty. intros H. vm_compute in H. discriminate.
  - unfold MapContainer.styleScore. by rewrite Hmissing.
Qed.

Lemma neutral_midpoint_witness :
  noData Samples.uncovered Samples.weightVector
  /\ MapContainer.props_score_global Samples.unscoredFeature = None
  /\ (score Samples.uncovered Samples.weightVector).2 = 50
  /\ ¬ (score Samples.uncovered Samples.weightVector).2 == 0
  /\ MapContainer.styleScore Samples.unscoredFeature = 50.
Proof.
  assert (noData Samples.uncovered Samples.weightVector) as Hnone
    by (intros id _; apply lookup_empty).
  assert (MapContainer.props_score_global Samples.unscoredFeature = None)
    as Hmissing by reflexivity.
  split; [exact Hnone|]. split; [exact Hmissing|].
  exact (neutral_midpoint Samples.uncovered Samples.weightVector
           Samples.unscoredFeature Hnone Hmissing).
Defined.

(** C2: when the weight vector has a criterion with a positive weight for
    which the commune has data, and the normalized scores of the commune
    are in [0,100], the composite that the scoring operation returns is
    the weighted mean and lies in [0,100]. *)
Theorem composite_in_range (commune : Commune)
    (weightVector : gmap string number) (id : string) (w x : number)
    (Hscores : validScores commune)
    (Hweight : weightVector !! id = Some w) (Henabled : 0 < w)
    (Hdata : scores commune !! id = Some x) :
  0 <= (score commune weightVector).2
  /\ (score commune weightVector).2 <= 100
  /\ (score commune weightVector).2
     == (totals commune weightVector).1 / (totals commune weightVector).2.
Proof.
  destruct (composite_bounded commune weightVector Hscores) as [H0 H100].
  repeat split; try done. simpl.
  apply composite_weighted_mean.
  by apply (totals_denominator_pos commune weightVector id w x).
Qed.

Lemma composite_in_range_witness :
  validScores Samples.lyon
  /\ Samples.weightVector !! "climat" = Some 70
  /\ 0 < 70
  /\ scores Samples.lyon !! "climat" = Some 65
  /\ 0 <= (score Samples.lyon Samples.weightVector).2
  /\ (score Samples.lyon Samples.weightVector).2 <= 100
  /\ (score Samples.lyon Samples.weightVector).2
     == (totals Samples.lyon Samples.weightVector).1
        / (totals Samples.lyon Samples.weightVector).2.
Proof.
  assert (validScores Samples.lyon) as Hscores.
  { unfold validScores, Samples.lyon; simpl.
    repeat (apply map_Forall_insert_2; [split; vm_compute; discriminate|]).
    apply map_Forall_empty. }
  assert (Samples.weightVector !! "climat" = Some 70) as Hweight
    by (vm_compute; reflexivity).
  assert (0 < 70) as Henabled by reflexivity.
  assert (scores Samples.lyon !! "climat" = Some 65) as Hdata
    by (vm_compute; reflexivity).
  split; [exact Hscores|]. split; [exact Hweight|].
  split; [exact Henabled|]. split; [exact Hdata|].
  exact (composite_in_range Samples.lyon Samples.weightVector "climat" 70 65
           Hscores Hweight Henabled Hdata).
Defined.

(** The composite of the sample commune: (80 * 20 + 70 * 65) / (80 + 70). *)
Example composite_lyon :
  composite Samples.lyon Samples.weightVector == 41.
Proof. vm_compute. reflexivity. Qed.

End ScoringFacts.

(** ** Score levels and colours *)

Module ColorFacts.
Import ScoreLevel Utils.

Lemma geb_true (a b : number) : geb a b = true ↔ b <= a.
Proof. apply Qle_bool_iff. Qed.

Lemma geb_false (a b : number) : geb a b = false ↔ a < b.
Proof.
  unfold geb. split.
  - intros Hf. apply Qnot_le_lt. intros Hle.
    apply Qle_bool_iff in Hle. congruence.
  - intros Hlt. destruct (Qle_bool b a) eqn:Hb; [|done].
    apply Qle_bool_iff in Hb. lra.
Qed.

(** Case analysis on the band of a score. *)
Ltac bands s :=
  destruct (geb s 80) eqn:?H80; [|destruct (geb s 60) eqn:?H60;
    [|destruct (geb s 40) eqn:?H40; [|destruct (geb s 20) eqn:?H20]]];
  repeat match goal with
         | H : geb _ _ = true |- _ => apply geb_true in H
         | H : geb _ _ = false |- _ => apply geb_false in H
         end.

(** X21: a higher score never gets a lower level. *)
Theorem getScoreLevel_monotone (s1 s2 : number) (Hle : s1 <= s2) :
  (rank (getScoreLevel s1) <= rank (getScoreLevel s2))%nat.
Proof.
  unfold getScoreLevel. bands s1; bands s2; simpl; try lia; lra.
Qed.

Lemma getScoreLevel_monotone_witness :
  59 <= 60
  /\ (rank (getScoreLevel 59) <= rank (getScoreLevel 60))%nat.
Proof.
  assert (59 <= 60) as Hle by (vm_compute; discriminate).
  split; [exact Hle|]. exact (getScoreLevel_monotone 59 60 Hle).
Defined.

(** X22: the badge level and the score colour use the same bands: two
    scores have the same level exactly when they have the same colour. *)
Theorem level_and_color_agree (s1 s2 : number) :
  getScoreLevel s1 = getScoreLevel s2 ↔ getScoreColor s1 = getScoreColor s2.
Proof.
  unfold getScoreLevel, getScoreColor.
  destruct (geb s1 80), (geb s1 60), (geb s1 40), (geb s1 20),
           (geb s2 80), (geb s2 60), (geb s2 40), (geb s2 20);
    split; intros H; first [reflexivity | discriminate H].
Qed.

(** *** Interpolation *)

Lemma Math_round_between (lo hi : Z) (x : number) :
  inject_Z lo <= x → x <= inject_Z hi → (lo <= Math_round x <= hi)%Z.
Proof.
  intros Hlo Hhi. unfold Math_round. split.
  - rewrite <- (Qfloor_Z lo). apply Qfloor_resp_le. lra.
  - pose proof (Qfloor_le (x + (1 # 2))) as Hfl.
    assert (inject_Z (Qfloor (x + (1 # 2))) < inject_Z (hi + 1)) as Hlt.
    { rewrite inject_Z_plus. change (inject_Z 1) with 1. lra. }
    rewrite <- Zlt_Qlt in Hlt. lia.
Qed.

Lemma lerp_between (lo hi l u f : number) :
  lo <= l → l <= hi → lo <= u → u <= hi → 0 <= f → f <= 1 →
  lo <= l + (u - l) * f /\ l + (u - l) * f <= hi.
Proof.
  intros Hl1 Hl2 Hu1 Hu2 Hf0 Hf1.
  assert (0 <= (l - lo) * (1 - f)) by (apply Qmult_le_0_compat; lra).
  assert (0 <= (u - lo) * f) by (apply Qmult_le_0_compat; lra).
  assert (0 <= (hi - l) * (1 - f)) by (apply Qmult_le_0_compat; lra).
  assert (0 <= (hi - u) * f) by (apply Qmult_le_0_compat; lra).
  split; lra.
Qed.

Lemma channel_byte (l u f : number) :
  0 <= l → l <= 255 → 0 <= u → u <= 255 → 0 <= f → f <= 1 →
  byte (channel l u f).
Proof.
  intros Hl0 Hl255 Hu0 Hu255 Hf0 Hf1. unfold byte, channel.
  destruct (lerp_between 0 255 l u f) as [Hlow Hhigh]; try done.
  apply Math_round_between; [exact Hlow | exact Hhigh].
Qed.

Lemma findStops_spec (s : number) (l : list ColorStop) lower upper :
  findStops s l = Some (lower, upper) →
  lower ∈ l /\ upper ∈ l /\ pos lower <= s /\ s <= pos upper.
Proof.
  induction l as [|currentStop [|nextStop rest] IH]; simpl; try done.
  destruct (geb s (pos currentStop) && Qle_bool s (pos nextStop)) eqn:Hin.
  - intros [= <- <-]. apply andb_true_iff in Hin as [H1 H2].
    apply geb_true in H1. apply Qle_bool_iff in H2.
    repeat split; try done; [left | right; left].
  - intros Hrest. destruct (IH Hrest) as (Hl & Hu & Hp).
    repeat split; try apply Hp; by right.
Qed.

Lemma stops_valid : Forall validStop stops.
Proof.
  unfold stops.
  repeat (apply Forall_cons_2;
          [repeat split; simpl; vm_compute; discriminate|]).
  apply Forall_nil_2.
Qed.

Lemma factor_unit (s lowPos upPos : number) :
  lowPos <= s → s <= upPos →
  let range := upPos - lowPos in
  let factor :=
    if negb (Qle_bool range 0) then (s - lowPos) / range else 0 in
  0 <= factor /\ factor <= 1.
Proof.
  intros Hlo Hup range factor. subst factor.
  destruct (Qle_bool range 0) eqn:Hr; simpl; [lra|].
  assert (0 < range) as Hpos.
  { apply Qnot_le_lt. intros Hle. apply Qle_bool_iff in Hle. congruence. }
  subst range. split.
  - apply Qle_shift_div_l; [done | lra].
  - apply Qle_shift_div_r; [done | lra].
Qed.

(** On a finite score the loop finds its stops or keeps the outer ones, and
    the three channels are between 0 and 255. *)
Lemma finite_score_channels (score : number) :
  ∃ red green blue,
    interpolateScoreChannels score = Some (red, green, blue)
    /\ interpolateScoreColor score = rgb (red, green, blue)
    /\ byte red /\ byte green /\ byte blue.
Proof.
  unfold interpolateScoreColor, interpolateScoreChannels.
  destruct (clamp_in_range score) as [Hs0 Hs100].
  set (s := Math_max 0 (Math_min 100 score)) in *.
  assert (∃ lower upper,
            match findStops s stops with
            | Some (currentStop, _) => Some currentStop
            | None => head stops
            end = Some lower
            /\ match findStops s stops with
               | Some (_, nextStop) => Some nextStop
               | None => last stops
               end = Some upper
            /\ lower ∈ stops /\ upper ∈ stops
            /\ pos lower <= s /\ s <= pos upper)
    as (lower & upper & -> & -> & Hl & Hu & Hlo & Hup).
  { destruct (findStops s stops) as [[lower upper]|] eqn:Hfound.
    - exists lower, upper.
      destruct (findStops_spec _ _ _ _ Hfound) as (? & ? & ? & ?). done.
    - eexists _, _. split; [reflexivity|]. split; [reflexivity|].
      repeat split; simpl; try done.
      + left.
      + do 4 right. left. }
  pose proof stops_valid as Hvalid. rewrite Forall_forall in Hvalid.
  destruct (Hvalid _ Hl) as ([? ?] & [? ?] & [? ?]).
  destruct (Hvalid _ Hu) as ([? ?] & [? ?] & [? ?]).
  destruct (factor_unit s (pos lower) (pos upper) Hlo Hup) as [Hf0 Hf1].
  simpl in Hf0, Hf1.
  eexists _, _, _. split; [reflexivity|]. split; [reflexivity|].
  repeat split; by apply channel_byte.
Qed.

Lemma clamp_below (x : number) :
  x <= 0 → Math_max 0 (Math_min 100 x) = 0.
Proof.
  intros Hx. unfold Math_max, Math_min, Qmax, Qmin.
  unfold GenericMinMax.gmax, GenericMinMax.gmin.
  destruct (Qcompare_spec 100 x); try lra.
  destruct (Qcompare_spec 0 x); try lra; reflexivity.
Qed.

Lemma clamp_above (x : number) :
  100 <= x → Math_max 0 (Math_min 100 x) = 100.
Proof.
  intros Hx. unfold Math_max, Math_min, Qmax, Qmin.
  unfold GenericMinMax.gmax, GenericMinMax.gmin.
  destruct (Qcompare_spec 100 x); try lra; reflexivity.
Qed.

(** X24: the colour scale saturates and agrees with the legend: every
    score at or below 0 gets the legend's colour for 0, every score at or
    above 100 the legend's colour for 100, and at the five positions that
    the legend labels the interpolated colour is the legend's. *)
Theorem interpolateScoreColor_legend (low high : number)
    (Hlow : low <= 0) (Hhigh : 100 <= high) :
  interpolateScoreColor low = "rgb(239, 68, 68)"
  /\ interpolateScoreColor high = "rgb(34, 197, 94)"
  /\ interpolateScoreColor <$> [0; 25; 50; 75; 100]
     = Legend.color <$> Legend.gradientStops.
Proof.
  unfold interpolateScoreColor, interpolateScoreChannels.
  rewrite (clamp_below low Hlow), (clamp_above high Hhigh).
  repeat split; vm_compute; reflexivity.
Qed.

Lemma interpolateScoreColor_legend_witness :
  -20 <= 0 /\ 100 <= 250
  /\ interpolateScoreColor (-20) = "rgb(239, 68, 68)"
  /\ interpolateScoreColor 250 = "rgb(34, 197, 94)"
  /\ interpolateScoreColor <$> [0; 25; 50; 75; 100]
     = Legend.color <$> Legend.gradientStops.
Proof.
  assert (-20 <= 0) as Hlow by (vm_compute; discriminate).
  assert (100 <= 250) as Hhigh by (vm_compute; discriminate).
  split; [exact Hlow|]. split; [exact Hhigh|].
  exact (interpolateScoreColor_legend (-20) 250 Hlow Hhigh).
Defined.

Example interpolateScoreColor_midway :
  interpolateScoreColor (25 # 2) = "rgb(244, 92, 45)"
  /\ interpolateScoreColor 60 = "rgb(193, 189, 14)".
Proof. split; vm_compute; reflexivity. Qed.

(** *** The badge at a band boundary *)

Lemma Math_round_eq (z : Z) (x : number) :
  inject_Z z - (1 # 2) <= x → x < inject_Z z + (1 # 2) → Math_round x = z.
Proof.
  intros Hlo Hhi. unfold Math_round.
  assert (z <= Qfloor (x + (1 # 2)))%Z as H1.
  { rewrite <- (Qfloor_Z z). apply Qfloor_resp_le. lra. }
  pose proof (Qfloor_le (x + (1 # 2))) as Hfl.
  assert (inject_Z (Qfloor (x + (1 # 2))) < inject_Z (z + 1)) as H2.
  { rewrite inject_Z_plus. change (inject_Z 1) with 1. lra. }
  rewrite <- Zlt_Qlt in H2. lia.
Qed.

(** X25: the badge rounds the number but takes the level from the score
    as it is: a score within half a point below a band threshold is shown
    as the threshold, with the level of the band below, while the
    threshold itself is shown with the level of the band above. *)
Theorem badge_below_threshold (threshold : Z) (score : number)
    (Hband : threshold ∈ ScoreBadge.thresholds)
    (Hlo : inject_Z threshold - (1 # 2) <= score)
    (Hhi : score < inject_Z threshold) :
  ScoreBadge.roundedScore (ScoreBadge.view score) = threshold
  /\ ScoreBadge.roundedScore (ScoreBadge.view (inject_Z threshold))
     = threshold
  /\ S (rank (ScoreBadge.level (ScoreBadge.view score)))
     = rank (ScoreBadge.level (ScoreBadge.view (inject_Z threshold))).
Proof.
  unfold ScoreBadge.view; simpl.
  split; [apply Math_round_eq; lra|].
  split; [apply Math_round_eq; lra|].
  unfold ScoreBadge.thresholds in Hband.
  repeat (apply elem_of_cons in Hband as [->|Hband]);
    [| | | |by apply elem_of_nil in Hband];
    match goal with
    | |- context [inject_Z ?z] =>
        change (getScoreLevel (inject_Z z))
          with ltac:(let v := eval vm_compute in (getScoreLevel (inject_Z z))
                     in exact v)
    end;
    change (inject_Z 20) with 20 in *; change (inject_Z 40) with 40 in *;
    change (inject_Z 60) with 60 in *; change (inject_Z 80) with 80 in *;
    unfold getScoreLevel; bands score; simpl; try reflexivity; lra.
Qed.

Lemma badge_below_threshold_witness :
  80%Z ∈ ScoreBadge.thresholds
  /\ inject_Z 80 - (1 # 2) <= 796 # 10
  /\ 796 # 10 < inject_Z 80
  /\ ScoreBadge.roundedScore (ScoreBadge.view (796 # 10)) = 80%Z
  /\ ScoreBadge.roundedScore (ScoreBadge.view (inject_Z 80)) = 80%Z
  /\ S (rank (ScoreBadge.level (ScoreBadge.view (796 # 10))))
     = rank (ScoreBadge.level (ScoreBadge.view (inject_Z 80))).
Proof.
  assert (80%Z ∈ ScoreBadge.thresholds) as Hband
    by (unfold ScoreBadge.thresholds; do 3 right; left).
  assert (inject_Z 80 - (1 # 2) <= 796 # 10) as Hlo
    by (vm_compute; discriminate).
  assert (796 # 10 < inject_Z 80) as Hhi by reflexivity.
  split; [exact Hband|]. split; [exact Hlo|]. split; [exact Hhi|].
  exact (badge_below_threshold 80 (796 # 10) Hband Hlo Hhi).
Defined.

Example badge_at_boundary :
  ScoreBadge.view (796 # 10)
  = {| ScoreBadge.roundedScore := 80; ScoreBadge.level := good |}
  /\ ScoreBadge.view 80
     = {| ScoreBadge.roundedScore := 80; ScoreBadge.level := excellent |}.
Proof. split; vm_compute; reflexivity. Qed.

End ColorFacts.

(** ** More on the filter store *)

Module StoreExtras.
Import FilterState Store StoreProps.

(** *** Loading the categories *)

Lemma initEntry_insert current acc category :
  initEntry current acc category
  = <[FilterCategory.id category :=
        default (defaultConfig category)
                (current !! FilterCategory.id category)]> acc.
Proof.
  unfold initEntry. by destruct (current !! FilterCategory.id category).
Qed.

Lemma initLoop_is_Some current categories acc k :
  is_Some (foldl (initEntry current) acc categories !! k)
  ↔ is_Some (acc !! k) ∨ k ∈ categoryIds categories.
Proof.
  revert acc. induction categories as [|c rest IH]; intros acc; simpl.
  - unfold categoryIds; simpl. rewrite elem_of_nil. tauto.
  - rewrite IH, initEntry_insert, lookup_insert_is_Some.
    unfold categoryIds; simpl. rewrite elem_of_cons.
    destruct (decide (FilterCategory.id c = k)) as [->|Hne].
    + split; [intros _; right; by left | intros _; left; by left].
    + split.
      * intros [[?|[_ ?]]|?]; [done | by left | right; by right].
      * intros [?|[?|?]]; [left; right; done | by subst | by right].
Qed.

Lemma initLoop_frame current categories acc k :
  k ∉ categoryIds categories →
  foldl (initEntry current) acc categories !! k = acc !! k.
Proof.
  revert acc. induction categories as [|c rest IH]; intros acc Hk; simpl.
  - done.
  - unfold categoryIds in Hk; simpl in Hk.
    apply not_elem_of_cons in Hk as [Hne Hrest].
    rewrite IH by done. rewrite initEntry_insert.
    by rewrite lookup_insert_ne.
Qed.

Lemma initLoop_existing current categories acc k existing :
  current !! k = Some existing → k ∈ categoryIds categories →
  foldl (initEntry current) acc categories !! k = Some existing.
Proof.
  intros Hcur. revert acc.
  induction categories as [|c rest IH]; intros acc Hk; simpl.
  - by apply elem_of_nil in Hk.
  - destruct (decide (k ∈ categoryIds rest)) as [Hin|Hout].
    + by apply IH.
    + unfold categoryIds in Hk; simpl in Hk.
      apply elem_of_cons in Hk as [->|Hin]; [|done].
      rewrite initLoop_frame by done.
      by rewrite initEntry_insert, lookup_insert_eq, Hcur.
Qed.

Lemma initLoop_fresh current categories acc category :
  category ∈ categories → NoDup (categoryIds categories) →
  current !! FilterCategory.id category = None →
  foldl (initEntry current) acc categories !! FilterCategory.id category
  = Some (defaultConfig category).
Proof.
  intros Hin Hnodup Hcur. revert acc Hin Hnodup.
  induction categories as [|c rest IH]; intros acc Hin Hnodup; simpl.
  - by apply elem_of_nil in Hin.
  - unfold categoryIds in Hnodup; simpl in Hnodup.
    apply NoDup_cons in Hnodup as [Hfirst Hrest].
    apply elem_of_cons in Hin as [->|Hin].
    + rewrite initLoop_frame by done.
      by rewrite initEntry_insert, lookup_insert_eq, Hcur.
    + by apply IH.
Qed.

(** X3: [initializeFromCategories] is idempotent: running it again with
    the same categories changes nothing. *)
Theorem initializeFromCategories_idempotent
    (categories : list FilterCategory.t) (s : t) :
  initializeFromCategories categories (initializeFromCategories categories s)
  = initializeFromCategories categories s.
Proof.
  unfold initializeFromCategories at 1 3; simpl. f_equal.
  apply map_eq. intros k.
  set (w := foldl (initEntry (weights s)) ∅ categories).
  destruct (decide (k ∈ categoryIds categories)) as [Hin|Hout].
  - assert (is_Some (w !! k)) as [existing Hex]
      by (apply initLoop_is_Some; by right).
    rewrite Hex. by apply initLoop_existing.
  - unfold w. by rewrite !initLoop_frame.
Qed.

(** *** Editing one filter *)

(** X4: [setWeight] overwrites: of two calls in a row for the same filter
    only the second one shows. *)
Theorem setWeight_last_wins (filterId : string) (w1 w2 : number) (s : t) :
  setWeight filterId w2 (setWeight filterId w1 s) = setWeight filterId w2 s.
Proof.
  unfold setWeight.
  destruct (weights s !! filterId) as [config|] eqn:Hc; [|by rewrite Hc].
  simpl. rewrite lookup_insert_eq; simpl.
  unfold set_weights; simpl. by rewrite insert_insert_eq.
Qed.

(** X7: the weight of a disabled filter can be edited, but the edit does
    not reach the weights sent with a request. *)
Theorem setWeight_disabled_not_sent (filterId : string) (weight : number)
    (s : t) (config : WeightConfig.t)
    (Hc : weights s !! filterId = Some config)
    (Hoff : WeightConfig.enabled config = false) :
  getEnabledWeights (setWeight filterId weight s) = getEnabledWeights s
  /\ WeightConfig.weight <$> weights (setWeight filterId weight s) !! filterId
     = Some (Math_max 0 (Math_min 100 weight)).
Proof.
  split.
  - apply map_eq. intros k. unfold getEnabledWeights, setWeight.
    rewrite Hc; simpl. rewrite !StoreFacts.enabledWeights_lookup.
    destruct (decide (filterId = k)) as [->|Hne].
    + rewrite lookup_insert_eq, Hc; simpl.
      unfold effectiveWeight; simpl. by rewrite Hoff.
    + by rewrite lookup_insert_ne.
  - unfold setWeight. rewrite Hc; simpl. by rewrite lookup_insert_eq.
Qed.

Lemma setWeight_disabled_not_sent_witness :
  let s := toggleFilter "climat" Samples.loaded in
  weights s !! "climat"
  = Some {| WeightConfig.id := "climat"; WeightConfig.weight := 70;
            WeightConfig.enabled := false |}
  /\ getEnabledWeights (setWeight "climat" 90 s) = getEnabledWeights s
  /\ WeightConfig.weight <$> weights (setWeight "climat" 90 s) !! "climat"
     = Some (Math_max 0 (Math_min 100 90)).
Proof.
  assert (weights (toggleFilter "climat" Samples.loaded) !! "climat"
          = Some {| WeightConfig.id := "climat"; WeightConfig.weight := 70;
                    WeightConfig.enabled := false |}) as Hc
    by (vm_compute; reflexivity).
  split; [exact Hc|].
  exact (setWeight_disabled_not_sent "climat" 90 _ _ Hc eq_refl).
Defined.

(** *** Invariants along a run *)

Lemma run_invariant (P : t → Prop) (ok : Action → Prop) :
  (∀ a s, ok a → P s → P (dispatch a s)) →
  ∀ actions s, Forall ok actions → P s → P (run actions s).
Proof.
  intros Hstep actions. unfold run.
  induction actions as [|a rest IH]; intros s Hok Hs; simpl; [done|].
  apply Forall_cons in Hok as [Ha Hrest]. apply IH; [done|]. by apply Hstep.
Qed.

Lemma Forall_True_action (actions : list Action) :
  Forall (λ _, True) actions.
Proof. by apply Forall_forall. Qed.

(** *** Active filters and the reset *)

Lemma activeConfig_false_iff (config : WeightConfig.t) :
  activeConfig config = false
  ↔ WeightConfig.weight config == 50 /\ WeightConfig.enabled config = true.
Proof.
  unfold activeConfig, num_eqb.
  destruct (Qeq_bool (WeightConfig.weight config) 50) eqn:Hw; simpl.
  - apply Qeq_bool_iff in Hw.
    destruct (WeightConfig.enabled config); simpl; split; try done.
    by intros [_ ?].
  - apply Qeq_bool_neq in Hw. split; [done | by intros [? _]].
Qed.

(** X10: [hasActiveFilters] answers false exactly when every stored filter
    has weight 50 and is enabled, the minimum score is 0, the population
    filter is off, and the query and the two code lists are empty; the
    population bounds themselves do not count. *)
Theorem hasActiveFilters_inactive_iff (s : t) :
  hasActiveFilters s = false
  ↔ (∀ filterId config, weights s !! filterId = Some config →
       WeightConfig.weight config == 50
       /\ WeightConfig.enabled config = true)
    /\ minScore s == 0
    /\ RangeFilter.enabled (population s) = false
    /\ searchQuery s = ""
    /\ departements s = []
    /\ regions s = [].
Proof.
  rewrite StoreFacts.hasActiveFilters_false_iff.
  assert (map_Forall (λ _ config, activeConfig config = false) (weights s)
          ↔ ∀ filterId config, weights s !! filterId = Some config →
              WeightConfig.weight config == 50
              /\ WeightConfig.enabled config = true) as ->; [|done].
  unfold map_Forall. split; intros H k config Hk;
    apply activeConfig_false_iff; by apply (H k).
Qed.


(** *** Loading the categories once *)

Lemma dispatch_keeps_loaded (a : Action) (s : t) :
  categoriesLoaded s = true → categoriesLoaded (dispatch a s) = true.
Proof.
  intros Hs. destruct a; simpl; try done.
  - unfold setWeight. by destruct (weights s !! filterId).
  - unfold toggleFilter. by destruct (weights s !! filterId).
Qed.

(** X12: the panel initialises the weights at most once: once its effect
    has run on a non-empty list of categories the store is marked as
    loaded, no sequence of store actions unmarks it, and the effect, run
    again with any categories, changes nothing. *)
Theorem categories_load_once (categories : list FilterCategory.t) (s : t)
    (Hne : categories ≠ []) (Hfresh : categoriesLoaded s = false) :
  let s1 := Panel.categoriesEffect (Some categories) s in
  s1 = initializeFromCategories categories s
  /\ categoriesLoaded s1 = true
  /\ ∀ actions later,
       categoriesLoaded (run actions s1) = true
       /\ Panel.categoriesEffect later (run actions s1) = run actions s1.
Proof.
  cbv zeta.
  assert (Panel.categoriesEffect (Some categories) s
          = initializeFromCategories categories s) as ->.
  { unfold Panel.categoriesEffect. rewrite Hfresh.
    by destruct categories. }
  split; [done|]. split; [done|]. intros actions later.
  assert (categoriesLoaded
            (run actions (initializeFromCategories categories s)) = true)
    as Hloaded.
  { apply (run_invariant (λ st, categoriesLoaded st = true) (λ _, True));
      [|apply Forall_True_action|done].
    intros a st _. apply dispatch_keeps_loaded. }
  split; [exact Hloaded|].
  unfold Panel.categoriesEffect. rewrite Hloaded.
  destruct later as [cats|]; [|done]. by rewrite andb_false_r.
Qed.

Lemma categories_load_once_witness :
  [Samples.proximite_mer; Samples.climat] ≠ []
  /\ categoriesLoaded createDefaultFilterState = false
  /\ Panel.categoriesEffect (Some [Samples.proximite_mer])
       (run Samples.session
          (Panel.categoriesEffect
             (Some [Samples.proximite_mer; Samples.climat])
             createDefaultFilterState))
     = run Samples.session
         (Panel.categoriesEffect
            (Some [Samples.proximite_mer; Samples.climat])
            createDefaultFilterState).
Proof.
  assert ([Samples.proximite_mer; Samples.climat] ≠ []) as Hne by done.
  assert (categoriesLoaded createDefaultFilterState = false) as Hfresh
    by reflexivity.
  split; [exact Hne|]. split; [exact Hfresh|].
  destruct (categories_load_once _ createDefaultFilterState Hne Hfresh)
    as (_ & _ & Hlater).
  exact (proj2 (Hlater Samples.session (Some [Samples.proximite_mer]))).
Defined.

End StoreExtras.

(** ** The slider and the panel handlers *)

Module SliderFacts.
Import FilterState Store StoreProps.

(** X14: a slider with [min <= max] only ever hands a value between
    [min] and [max] to [onChange]; it hands nothing when it is disabled or
    when its track is not mounted. *)
Theorem handleChange_in_bounds (props : Slider.Props) (rect : Slider.Rect)
    (clientX : number)
    (Hwidth : 0 < Slider.width rect) (Hstep : ¬ Slider.step props == 0)
    (Hle : Slider.min props <= Slider.max props) :
  Slider.handleChange props None clientX = None
  /\ (Slider.disabled props = true →
      Slider.handleChange props (Some rect) clientX = None)
  /\ (Slider.disabled props = false →
      ∃ v, Slider.handleChange props (Some rect) clientX = Some v
           /\ Slider.min props <= v /\ v <= Slider.max props).
Proof.
  split; [done|]. unfold Slider.handleChange. split; intros ->; [done|].
  eexists. split; [reflexivity|]. unfold Math_max, Math_min. split.
  - apply Q.le_max_l.
  - apply Q.max_lub; [done | apply Q.le_min_l].
Qed.

Lemma handleChange_in_bounds_witness :
  let rect := {| Slider.left := 100; Slider.width := 200 |} in
  0 < Slider.width rect
  /\ ¬ Slider.step Panel.populationMinSlider == 0
  /\ Slider.min Panel.populationMinSlider
     <= Slider.max Panel.populationMinSlider
  /\ ∃ v, Slider.handleChange Panel.populationMinSlider (Some rect) 163
           = Some v
          /\ Slider.min Panel.populationMinSlider <= v
          /\ v <= Slider.max Panel.populationMinSlider.
Proof.
  cbv zeta.
  assert (0 < Slider.width {| Slider.left := 100; Slider.width := 200 |})
    as Hwidth by reflexivity.
  assert (¬ Slider.step Panel.populationMinSlider == 0) as Hstep
    by (intros H; vm_compute in H; discriminate).
  assert (Slider.min Panel.populationMinSlider
          <= Slider.max Panel.populationMinSlider) as Hle
    by (vm_compute; discriminate).
  split; [exact Hwidth|]. split; [exact Hstep|]. split; [exact Hle|].
  exact (proj2 (proj2 (handleChange_in_bounds Panel.populationMinSlider
                         _ 163 Hwidth Hstep Hle)) eq_refl).
Defined.

Example weight_slider_steps :
  Slider.handleChange
    (Panel.weightSlider (defaultConfig Samples.climat))
    (Some {| Slider.left := 100; Slider.width := 200 |}) 163
  = Some 30
  /\ Slider.handleChange
       (Panel.weightSlider (defaultConfig Samples.climat))
       (Some {| Slider.left := 100; Slider.width := 200 |}) 900
     = Some 100.
Proof. split; vm_compute; reflexivity. Qed.




(** X16: through the two population sliders the stored range stays well
    formed: with a non-negative slider value, the minimum slider stores
    its value and pushes the maximum up to it when needed, and the maximum
    slider keeps the minimum and cannot bring the maximum below it. *)
Theorem population_sliders_keep_order (v : number) (s : t)
    (Hs : lowerBoundNonneg s /\ wellFormed (population s))
    (Hv : 0 <= v) :
  let old := population s in
  let viaMin := population (Panel.onPopulationMin v s) in
  let viaMax := population (Panel.onPopulationMax v s) in
  (RangeFilter.min viaMin == v
   /\ RangeFilter.max viaMin == Qmax v (RangeFilter.max old)
   /\ wellFormed viaMin)
  /\ (RangeFilter.min viaMax == RangeFilter.min old
      /\ RangeFilter.max viaMax == Qmax (RangeFilter.min old) v
      /\ wellFormed viaMax).
Proof.
  destruct Hs as [Hlow Hwf]. unfold lowerBoundNonneg, wellFormed in *.
  cbv zeta. unfold Panel.onPopulationMin, Panel.onPopulationMax.
  unfold setPopulationRange, Math_max; simpl.
  set (lo := RangeFilter.min (population s)) in *.
  set (hi := RangeFilter.max (population s)) in *.
  assert (Qmax 0 v == v) as Hmv by (by apply Q.max_r).
  assert (Qmax 0 lo == lo) as Hml by (by apply Q.max_r).
  pose proof (Q.le_max_l v hi). pose proof (Q.le_max_l lo v).
  repeat split; try done.
  - rewrite Hmv. done.
  - rewrite Hml. done.
Qed.

Lemma population_sliders_keep_order_witness :
  (lowerBoundNonneg createDefaultFilterState
   /\ wellFormed (population createDefaultFilterState))
  /\ 0 <= 2000000
  /\ RangeFilter.max
       (population (Panel.onPopulationMin 2000000 createDefaultFilterState))
     == 2000000
  /\ wellFormed
       (population (Panel.onPopulationMin 2000000 createDefaultFilterState)).
Proof.
  assert (lowerBoundNonneg createDefaultFilterState
          /\ wellFormed (population createDefaultFilterState)) as Hs
    by (split; vm_compute; discriminate).
  assert (0 <= 2000000) as Hv by (vm_compute; discriminate).
  split; [exact Hs|]. split; [exact Hv|].
  destruct (population_sliders_keep_order 2000000 createDefaultFilterState
              Hs Hv) as [(_ & Hmax & Hwf) _].
  split; [|exact Hwf]. rewrite Hmax. vm_compute. reflexivity.
Defined.

End SliderFacts.

(** ** The map store, its loaders and the feature style *)

Module MapFacts.
Import MapStore Loaders.

(** X17: whichever loader runs and however its request settles, the map
    store ends with the loading flag off and the selection and viewport
    untouched; a success installs the geometry and clears the error, a
    failure keeps the geometry that was shown and records the message of
    the error, or the loader's fallback text when the thrown value is not
    an [Error].  The two query functions settle as their request did. *)
Theorem loaders_settle_store {R : Type}
    (both : Settled (R * CommunesGeoJSON))
    (request : Settled CommunesGeoJSON) (m : t) :
  settledStore snd "Erreur inconnue" both m
    (useSearchCommunes_queryFn both m).1
  /\ (useSearchCommunes_queryFn both m).2
     = match both with
       | Resolved (searchResult, _) => Resolved searchResult
       | Rejected e => Rejected e
       end
  /\ settledStore (λ geojson, geojson) "Erreur de chargement" request m
       (useGeoJSON_queryFn request m).1
  /\ (useGeoJSON_queryFn request m).2 = request
  /\ loadInitialData request m = (useGeoJSON_queryFn request m).1.
Proof.
  unfold settledStore.
  destruct both as [[searchResult geojson]|e], request as [geojson'|e'];
    simpl; repeat split.
Qed.

(** X18: the style callback colours a feature without a score like the
    middle of the legend, and never styles as selected a feature without
    a code, nor any feature while nothing is selected; a feature is
    styled as selected exactly when its code is the selected one. *)
Theorem style_of_feature (feature : option MapContainer.Feature)
    (selectedCode : option string) :
  (MapContainer.props_score_global feature = None →
   MapStyle.fillColor (MapStyle.style feature selectedCode)
   = "rgb(234, 179, 8)")
  /\ (MapStyle.isSelected feature selectedCode = true
      ↔ ∃ code, MapStyle.props_code_insee feature = Some code
                /\ selectedCode = Some code)
  /\ (MapStyle.isSelected feature selectedCode = false →
      MapStyle.fillOpacity (MapStyle.style feature selectedCode) = 55 # 100
      /\ MapStyle.weight (MapStyle.style feature selectedCode) = 3 # 10).
Proof.
  split; [|split].
  - intros Hnone. unfold MapStyle.style, MapContainer.styleScore.
    rewrite Hnone. vm_compute. reflexivity.
  - unfold MapStyle.isSelected.
    destruct (MapStyle.props_code_insee feature) as [code|],
             selectedCode as [selected|]; simpl.
    + rewrite String.eqb_eq. split.
      * intros ->. by exists selected.
      * by intros (c & [= ->] & [= ->]).
    + split; [done | by intros (c & _ & ?)].
    + split; [done | by intros (c & ? & _)].
    + split; [done | by intros (c & ? & _)].
  - unfold MapStyle.style. by intros ->.
Qed.

Lemma style_of_feature_witness :
  MapContainer.props_score_global Samples.unscoredFeature = None
  /\ MapStyle.fillColor (MapStyle.style Samples.unscoredFeature (Some "69123"))
     = "rgb(234, 179, 8)".
Proof.
  assert (MapContainer.props_score_global Samples.unscoredFeature = None)
    as Hnone by reflexivity.
  split; [exact Hnone|].
  exact (proj1 (style_of_feature Samples.unscoredFeature (Some "69123"))
           Hnone).
Defined.

End MapFacts.

(** ** Query strings *)

Module QueryFacts.
Import ApiQuery.

(** X19: [getCommunes] sends a parameter exactly for the truthy fields:
    [limit] and [offset] when they are given and not 0, [sort_by] when
    the string is given and not empty, [order] whenever it is given; each
    name occurs at most once, and without any such field the endpoint is
    the bare path. *)
Theorem getCommunes_query (params : option CommunesParams) :
  let q := query (getCommunes params) in
  get "limit" q
  = (n ← field limit params; if truthy_num n then Some (OfNumber n) else None)
  /\ get "offset" q
     = (n ← field offset params;
        if truthy_num n then Some (OfNumber n) else None)
  /\ get "sort_by" q
     = (v ← field sortBy params;
        if truthy_str v then Some (OfString v) else None)
  /\ get "order" q
     = (λ o, OfString (String_of_Order o)) <$> field order params
  /\ NoDup q.*1
  /\ path (getCommunes params) = "/communes"
  /\ query (getCommunes None) = [].
Proof.
  cbv zeta. unfold getCommunes, setIfTruthyNum, setIfTruthyStr.
  destruct params as [[l o sb ord]|]; simpl;
    [|repeat split; apply NoDup_nil_2].
  destruct l as [l|]; simpl; [destruct (truthy_num l); simpl|];
    (destruct o as [o|]; simpl; [destruct (truthy_num o); simpl|]);
    (destruct sb as [sb|]; simpl; [destruct (truthy_str sb); simpl|]);
    (destruct ord as [[|]|]; simpl);
    (repeat split; try reflexivity;
     apply (bool_decide_unpack _); vm_compute; exact I).
Qed.

(** X20: [getGeoJSON] sends [min_score] and [simplified] whenever they
    are given, a minimum score of 0 and [simplified = false] included;
    the query is empty exactly when neither is given. *)
Theorem getGeoJSON_query (params : option GeoJSONParams) :
  let q := query (getGeoJSON params) in
  get "min_score" q = OfNumber <$> field minScore params
  /\ get "simplified" q = OfBool <$> field simplified params
  /\ (q = [] ↔ field minScore params = None
               /\ field simplified params = None).
Proof.
  cbv zeta. unfold getGeoJSON.
  destruct params as [[m b]|]; simpl; [|done].
  destruct m as [m|], b as [b|]; simpl; repeat split; try done;
    by intros [? ?].
Qed.

Example first_page_has_no_offset :
  query (getCommunes (Some {| limit := Some 20; offset := Some 0;
                              sortBy := Some ""; order := Some desc |}))
  = [("limit", OfNumber 20); ("order", OfString "desc")]
  /\ query (getGeoJSON (Some {| minScore := Some 0;
                                simplified := Some false |}))
     = [("min_score", OfNumber 0); ("simplified", OfBool false)].
Proof. split; reflexivity. Qed.

End QueryFacts.

(** ** The store over JavaScript values *)

Module JsFacts.
Import JsObject JsStore JsProps.

(** *** Numbers *)

Lemma clamp_Fin (x : Q) :
  clamp (JsNum.Fin x) = JsNum.Fin (Math_max 0 (Math_min 100 x)).
Proof. reflexivity. Qed.

Lemma clamp_inRange (x : JsNum.t) :
  x ≠ JsNum.NaN → JsNum.inRange (clamp x).
Proof.
  intros Hx. destruct x as [| |q|]; try done.
  rewrite clamp_Fin. apply clamp_in_range.
Qed.

Lemma clamp_NaN : clamp JsNum.NaN = JsNum.NaN.
Proof. reflexivity. Qed.

Lemma Qclamp_cases (q : Q) :
  Qmax 0 (Qmin 100 q)
  = if Qle_bool q 0 then 0 else if Qle_bool 100 q then 100 else q.
Proof.
  unfold Qmax, Qmin, GenericMinMax.gmax, GenericMinMax.gmin.
  destruct (Qle_bool q 0) eqn:Hlow.
  - apply Qle_bool_iff in Hlow.
    destruct (Qcompare_spec 100 q); try lra.
    destruct (Qcompare_spec 0 q); try lra; reflexivity.
  - assert (0 < q) as Hpos.
    { apply Qnot_le_lt. intros Hle. apply Qle_bool_iff in Hle. congruence. }
    destruct (Qle_bool 100 q) eqn:Hhigh.
    + apply Qle_bool_iff in Hhigh.
      destruct (Qcompare_spec 100 q); try lra; reflexivity.
    + assert (q < 100) as Hlt.
      { apply Qnot_le_lt. intros Hle. apply Qle_bool_iff in Hle.
        congruence. }
      destruct (Qcompare_spec 100 q); try lra.
      destruct (Qcompare_spec 0 q); try lra; reflexivity.
Qed.

(** The clamp takes a number to the nearest one of [0,100], and NaN to
    NaN. *)
Lemma clamp_nearest (x : JsNum.t) : clamp x = nearestInRange x.
Proof.
  destruct x as [| |q|]; try reflexivity.
  rewrite clamp_Fin. unfold Math_max, Math_min. simpl.
  by rewrite Qclamp_cases.
Qed.

(** *** Reading and writing properties *)

Lemma isMethod_plain (k : string) : plainKey k → isMethod k = false.
Proof. intros [_ Hk]. unfold isMethod. by apply bool_decide_eq_false. Qed.

Lemma eqb_proto_plain (k : string) :
  k ≠ "__proto__" → String.eqb k "__proto__" = false.
Proof. intros Hk. by apply String.eqb_neq. Qed.

(** On a plain object a key that [Object.prototype] does not define reads
    as the own property. *)
Lemma get_plain (o : JsObject.t) (k : string) :
  proto o = None → plainKey k → get o k = own o !! k.
Proof.
  intros Hproto Hk. unfold get. rewrite Hproto; simpl.
  destruct (own o !! k); [done|].
  by rewrite (eqb_proto_plain k (proj1 Hk)), (isMethod_plain k Hk).
Qed.

(** An own property reads as itself, whatever the key. *)
Lemma get_own (o : JsObject.t) (k : string) (v : value) :
  own o !! k = Some v → get o k = Some v.
Proof. intros Hk. unfold get. by rewrite Hk. Qed.

Lemma assign_other (k : string) (v : value) (o : JsObject.t) :
  k ≠ "__proto__" → assign k v o = JsObject.mk (<[k := v]> (own o)) (proto o).
Proof.
  intros Hk. unfold assign.
  by rewrite (eqb_proto_plain k Hk), !orb_true_r.
Qed.

(** *** The clamp and the guard at their limits *)

(** C6 fails on the code: [setWeight] hands NaN through its clamp, so the
    store ends with a weight that is not in [0,100]; and
    [initializeFromCategories], given a category whose id names a method
    of [Object.prototype], stores the inherited method in place of a
    weight entry. *)
Theorem setWeight_stores_NaN :
  (own (weights (setWeight "climat" JsNum.NaN JsSamples.loaded)) !! "climat"
   = Some (VEntry (config "climat" JsNum.NaN true))
   /\ ¬ JsNum.inRange JsNum.NaN)
  /\ own (weights (initializeFromCategories [JsSamples.toString]
                     createDefaultFilterState)) !! "toString"
     = Some (VBuiltin (Method "toString")).
Proof.
  split; [split|].
  - vm_compute. reflexivity.
  - intros [].
  - vm_compute. reflexivity.
Qed.

(** C8 fails on the code: the guard of [setWeight] and [toggleFilter]
    reads [constructor] through the prototype chain, so on a store that
    does not hold that key both create an entry, of one field. *)
Theorem setWeight_inherited_key :
  own (weights createDefaultFilterState) !! "constructor" = None
  /\ own (weights (setWeight "constructor" (JsNum.Fin 40)
                     createDefaultFilterState)) !! "constructor"
     = Some (VEntry {[ "weight" := PNum (JsNum.Fin 40) ]})
  /\ own (weights (toggleFilter "constructor" createDefaultFilterState))
       !! "constructor"
     = Some (VEntry {[ "enabled" := PBool true ]}).
Proof. repeat split; vm_compute; reflexivity. Qed.

Example inherited_method_is_sent_as_zero :
  getEnabledWeights
    (initializeFromCategories [JsSamples.toString] createDefaultFilterState)
    !! "toString" = Some (Some (PNum (JsNum.Fin 0))).
Proof. vm_compute. reflexivity. Qed.

(** *** Loading the categories *)

(** What the loop of [initializeFromCategories] writes for a category. *)
Lemma initEntry_assign current acc category :
  initEntry current acc category
  = assign (id category)
      (default (VEntry (config (id category) (weightDefault category) true))
               (get current (id category)))
      acc.
Proof. unfold initEntry. by destruct (get current (id category)). Qed.

Lemma assign_own_ne (j k : string) (v : value) (o : JsObject.t) :
  j ≠ k → own (assign j v o) !! k = own o !! k.
Proof.
  intros Hne. unfold assign.
  destruct (_ || _ || _); simpl; [by rewrite lookup_insert_ne|].
  by destruct v.
Qed.

Lemma initLoop_own_frame current categories acc k :
  k ∉ categoryIds categories →
  own (foldl (initEntry current) acc categories) !! k = own acc !! k.
Proof.
  revert acc. induction categories as [|c rest IH]; intros acc Hk; simpl.
  - done.
  - unfold categoryIds in Hk; simpl in Hk.
    apply not_elem_of_cons in Hk as [Hne Hrest].
    rewrite IH by done. rewrite initEntry_assign.
    by apply assign_own_ne.
Qed.

Lemma initLoop_own_is_Some current categories acc k :
  "__proto__" ∉ categoryIds categories →
  is_Some (own (foldl (initEntry current) acc categories) !! k)
  ↔ is_Some (own acc !! k) ∨ k ∈ categoryIds categories.
Proof.
  revert acc. induction categories as [|c rest IH]; intros acc Hno; simpl.
  - unfold categoryIds; simpl. rewrite elem_of_nil. tauto.
  - unfold categoryIds in Hno; simpl in Hno.
    apply not_elem_of_cons in Hno as [Hc Hrest].
    rewrite IH by done. rewrite initEntry_assign.
    rewrite assign_other by done. simpl.
    rewrite lookup_insert_is_Some.
    unfold categoryIds; simpl. rewrite elem_of_cons.
    destruct (decide (id c = k)) as [->|Hne].
    + split; [intros _; right; by left | intros _; left; by left].
    + split.
      * intros [[?|[_ ?]]|?]; [done | by left | right; by right].
      * intros [?|[?|?]]; [left; right; done | by subst | by right].
Qed.

Lemma initLoop_own_existing current categories acc k v :
  get current k = Some v → k ≠ "__proto__" → k ∈ categoryIds categories →
  own (foldl (initEntry current) acc categories) !! k = Some v.
Proof.
  intros Hv Hk. revert acc.
  induction categories as [|c rest IH]; intros acc Hin; simpl.
  - by apply elem_of_nil in Hin.
  - destruct (decide (k ∈ categoryIds rest)) as [Hrest|Hrest].
    + by apply IH.
    + unfold categoryIds in Hin; simpl in Hin.
      apply elem_of_cons in Hin as [->|Hin]; [|done].
      rewrite initLoop_own_frame by done.
      rewrite initEntry_assign, Hv; simpl.
      rewrite assign_other by done. simpl. apply lookup_insert_eq.
Qed.

Lemma initLoop_own_fresh current categories acc category :
  category ∈ categories → id category ≠ "__proto__" →
  get current (id category) = None → NoDup (categoryIds categories) →
  own (foldl (initEntry current) acc categories) !! id category
  = Some (VEntry (config (id category) (weightDefault category) true)).
Proof.
  intros Hin Hk Hnone Hnodup. revert acc Hin Hnodup.
  induction categories as [|c rest IH]; intros acc Hin Hnodup; simpl.
  - by apply elem_of_nil in Hin.
  - unfold categoryIds in Hnodup; simpl in Hnodup.
    apply NoDup_cons in Hnodup as [Hfirst Hrest].
    apply elem_of_cons in Hin as [->|Hin]; [|by apply IH].
    rewrite initLoop_own_frame by done.
    rewrite initEntry_assign, Hnone; simpl.
    rewrite assign_other by done. simpl. apply lookup_insert_eq.
Qed.

(** X1: after [initializeFromCategories], given categories none of which
    is called [__proto__], the weights object has an own property for
    exactly the ids of the categories, whatever the store held before: ids
    that are no longer among the categories are dropped.  A category
    called [__proto__] gets no own property, and an empty list of
    categories leaves the weights empty. *)
Theorem initializeFromCategories_own_keys (categories : list Category)
    (s : t) (filterId : string)
    (Hnone : "__proto__" ∉ categoryIds categories) :
  (is_Some (own (weights (initializeFromCategories categories s)) !! filterId)
   ↔ filterId ∈ categoryIds categories)
  /\ (∀ category, id category = "__proto__" →
        own (weights (initializeFromCategories [category] s)) = ∅)
  /\ weights (initializeFromCategories [] s) = JsObject.empty.
Proof.
  split; [|split; [|reflexivity]].
  - unfold initializeFromCategories; simpl.
    rewrite initLoop_own_is_Some by done. simpl. rewrite lookup_empty.
    split; [intros [[? ?]|?]; done | by right].
  - intros category Hid. unfold initializeFromCategories; simpl.
    rewrite initEntry_assign, Hid. unfold assign; simpl.
    by destruct (default _ _).
Qed.

Lemma initializeFromCategories_own_keys_witness :
  ("__proto__" ∉ categoryIds [JsSamples.proximite_mer; JsSamples.climat])
  /\ (is_Some (own (weights (initializeFromCategories
                              [JsSamples.proximite_mer; JsSamples.climat]
                              JsSamples.loaded)) !! "climat")
     ↔ "climat" ∈ categoryIds [JsSamples.proximite_mer; JsSamples.climat]).
Proof.
  assert ("__proto__"
          ∉ categoryIds [JsSamples.proximite_mer; JsSamples.climat]) as Hnone.
  { apply (bool_decide_unpack _). vm_compute. exact I. }
  split; [exact Hnone|].
  exact (proj1 (initializeFromCategories_own_keys _ JsSamples.loaded "climat"
                  Hnone)).
Defined.

(** X2: for a category in the list, not called [__proto__],
    [initializeFromCategories] stores what the current weights object
    reads at its id, when that is defined: the stored entry as it is for a
    filter the store holds, and an inherited member of [Object.prototype]
    for an id that names one.  When the read is undefined, which on a
    plain weights object is the case of an id that is not an own key and
    that [Object.prototype] does not define, and the ids are distinct, it
    stores the default weight of the category, enabled. *)
Theorem initializeFromCategories_value (categories : list Category)
    (s : t) (category : Category)
    (Hin : category ∈ categories) (Hid : id category ≠ "__proto__") :
  let s' := initializeFromCategories categories s in
  (∀ v, get (weights s) (id category) = Some v →
        own (weights s') !! id category = Some v)
  /\ (get (weights s) (id category) = None →
      NoDup (categoryIds categories) →
      own (weights s') !! id category
      = Some (VEntry (config (id category) (weightDefault category) true)))
  /\ (proto (weights s) = None → plainKey (id category) →
      get (weights s) (id category) = own (weights s) !! id category).
Proof.
  cbv zeta. unfold initializeFromCategories; simpl. split; [|split].
  - intros v Hv. apply (initLoop_own_existing _ _ _ _ v); try done.
    unfold categoryIds. by apply list_elem_of_fmap_2.
  - intros Hnone Hnodup. by apply initLoop_own_fresh.
  - apply get_plain.
Qed.

Lemma initializeFromCategories_value_witness :
  JsSamples.climat ∈ [JsSamples.proximite_mer; JsSamples.climat]
  /\ id JsSamples.climat ≠ "__proto__"
  /\ own (weights (initializeFromCategories
                     [JsSamples.proximite_mer; JsSamples.climat]
                     createDefaultFilterState)) !! "climat"
     = Some (VEntry (config "climat" (JsNum.Fin 70) true))
  /\ own (weights (initializeFromCategories
                     [JsSamples.proximite_mer; JsSamples.climat]
                     (setWeight "climat" (JsNum.Fin 35) JsSamples.loaded)))
       !! "climat"
     = Some (VEntry (config "climat" (JsNum.Fin 35) true)).
Proof.
  assert (JsSamples.climat ∈ [JsSamples.proximite_mer; JsSamples.climat])
    as Hin by (right; left).
  assert (id JsSamples.climat ≠ "__proto__") as Hid by discriminate.
  split; [exact Hin|]. split; [exact Hid|]. split.
  - destruct (initializeFromCategories_value _ createDefaultFilterState
                _ Hin Hid) as (_ & Hfresh & _).
    apply Hfresh; [reflexivity|].
    apply (bool_decide_unpack _). vm_compute. exact I.
  - destruct (initializeFromCategories_value _
                (setWeight "climat" (JsNum.Fin 35) JsSamples.loaded)
                _ Hin Hid) as (Hkept & _ & _).
    apply Hkept. vm_compute. reflexivity.
Defined.

(** *** Editing one filter *)

(** The weight that [setWeight] writes is the clamped argument, whatever
    the store: when the guard lets the call through, the entry it writes
    under [filterId] has this weight. *)
Lemma setWeight_writes_clamp (filterId : string) (weight : JsNum.t) (s : t) :
  truthy (get (weights s) filterId) = true →
  ∃ e, own (weights (setWeight filterId weight s)) !! filterId
       = Some (VEntry e)
       /\ e !! "weight" = Some (PNum (clamp weight)).
Proof.
  intros Hguard. unfold setWeight.
  destruct (get (weights s) filterId) as [read|] eqn:Hget; [|done].
  rewrite Hguard. simpl. eexists. rewrite lookup_insert_eq.
  split; [reflexivity|]. apply lookup_insert_eq.
Qed.

(** X27: [setWeight] and [toggleFilter] return the very state they were
    given when the weights object reads undefined at the id, which on a
    plain weights object is the case of an id that is not an own key and
    that [Object.prototype] does not define. *)
Theorem undefined_filter_noop (filterId : string) (weight : JsNum.t) (s : t)
    (Hproto : proto (weights s) = None) (Hplain : plainKey filterId)
    (Habsent : own (weights s) !! filterId = None) :
  get (weights s) filterId = None
  /\ setWeight filterId weight s = s
  /\ toggleFilter filterId s = s.
Proof.
  assert (get (weights s) filterId = None) as Hget
    by (by rewrite get_plain).
  unfold setWeight, toggleFilter. by rewrite Hget.
Qed.

Lemma undefined_filter_noop_witness :
  proto (weights JsSamples.loaded) = None
  /\ plainKey "transports"
  /\ own (weights JsSamples.loaded) !! "transports" = None
  /\ setWeight "transports" (JsNum.Fin 40) JsSamples.loaded = JsSamples.loaded
  /\ toggleFilter "transports" JsSamples.loaded = JsSamples.loaded.
Proof.
  assert (proto (weights JsSamples.loaded) = None) as Hproto by reflexivity.
  assert (plainKey "transports") as Hplain.
  { split; [discriminate|]. apply (bool_decide_unpack _). vm_compute.
    exact I. }
  assert (own (weights JsSamples.loaded) !! "transports" = None) as Habsent
    by (vm_compute; reflexivity).
  split; [exact Hproto|]. split; [exact Hplain|]. split; [exact Habsent|].
  exact (proj2 (undefined_filter_noop "transports" (JsNum.Fin 40)
                  JsSamples.loaded Hproto Hplain Habsent)).
Defined.

(** X5: on a plain weights object, [toggleFilter] with an id that
    [Object.prototype] does not define is an involution: toggling twice
    gives back the state, when the store holds a weight entry for the id
    and when it holds nothing for it. *)
Theorem toggleFilter_twice (filterId : string) (s : t)
    (Hproto : proto (weights s) = None) (Hplain : plainKey filterId)
    (Hentry : ∀ v, own (weights s) !! filterId = Some v → weightEntry v) :
  toggleFilter filterId (toggleFilter filterId s) = s.
Proof.
  destruct (own (weights s) !! filterId) as [v|] eqn:Hown.
  - destruct (Hentry v eq_refl) as (e & n & b & -> & Hw & Hb).
    unfold toggleFilter at 2.
    rewrite (get_own _ _ _ Hown). simpl. rewrite Hb. simpl.
    unfold toggleFilter. simpl. unfold get. simpl.
    rewrite lookup_insert_eq. simpl. rewrite lookup_insert_eq. simpl.
    destruct s as [[o p] ms pop q deps regs loaded].
    unfold set_weights, withKey; simpl in *. subst p.
    rewrite !insert_insert_eq, negb_involutive.
    rewrite (insert_id e "enabled" (PBool b) Hb).
    by rewrite (insert_id o filterId (VEntry e) Hown).
  - destruct (undefined_filter_noop filterId JsNum.NaN s Hproto Hplain Hown)
      as (_ & _ & Hnoop).
    by rewrite !Hnoop.
Qed.

Lemma loaded_holds_climat :
  own (weights JsSamples.loaded) !! "climat"
  = Some (VEntry (config "climat" (JsNum.Fin 70) true)).
Proof. vm_compute. reflexivity. Qed.

Lemma plainKey_climat : plainKey "climat".
Proof.
  split; [discriminate|]. apply (bool_decide_unpack _). vm_compute. exact I.
Qed.

Lemma weightEntry_config (k : string) (n : JsNum.t) (b : bool) :
  weightEntry (VEntry (config k n b)).
Proof. exists (config k n b), n, b. done. Qed.

Lemma toggleFilter_twice_witness :
  proto (weights JsSamples.loaded) = None
  /\ plainKey "climat"
  /\ (∀ v, own (weights JsSamples.loaded) !! "climat" = Some v →
           weightEntry v)
  /\ toggleFilter "climat" (toggleFilter "climat" JsSamples.loaded)
     = JsSamples.loaded.
Proof.
  assert (proto (weights JsSamples.loaded) = None) as Hproto by reflexivity.
  assert (∀ v, own (weights JsSamples.loaded) !! "climat" = Some v →
               weightEntry v) as Hentry.
  { intros v. rewrite loaded_holds_climat. intros [= <-].
    apply weightEntry_config. }
  split; [exact Hproto|]. split; [exact plainKey_climat|].
  split; [exact Hentry|].
  exact (toggleFilter_twice "climat" JsSamples.loaded Hproto plainKey_climat
           Hentry).
Defined.

(** *** The weights sent with a request *)

(** What [getEnabledWeights] reports for a value of the weights object. *)
Lemma sent_weights_lookup (o : gmap string value) (k : string) :
  map_fold enabledEntry ∅ o !! k
  = if String.eqb k "__proto__" then None
    else (λ read, if truthy_field (field read "enabled")
                  then field read "weight"
                  else Some (PNum (JsNum.Fin 0))) <$> o !! k.
Proof.
  revert k.
  apply (map_fold_weak_ind
           (λ (r : gmap string (option prim)) (m : gmap string value),
              ∀ k, r !! k
                   = if String.eqb k "__proto__" then None
                     else (λ read, if truthy_field (field read "enabled")
                                   then field read "weight"
                                   else Some (PNum (JsNum.Fin 0)))
                          <$> m !! k)).
  - intros k. rewrite !lookup_empty. by destruct (String.eqb k "__proto__").
  - intros i x m r Hfresh IH k. unfold enabledEntry.
    destruct (String.eqb_spec i "__proto__") as [->|Hi].
    + rewrite IH. destruct (String.eqb_spec k "__proto__") as [->|Hk];
        [done|]. by rewrite lookup_insert_ne.
    + destruct (decide (i = k)) as [->|Hne].
      * rewrite (eqb_proto_plain k Hi).
        destruct (truthy_field (field x "enabled")) eqn:Hen;
          rewrite !lookup_insert_eq; simpl; by rewrite Hen.
      * destruct (truthy_field (field x "enabled"));
          rewrite !lookup_insert_ne by done; apply IH.
Qed.

(** X6: toggling a filter that the store holds as a weight entry, under a
    key other than [__proto__], changes the weights sent with a request at
    that filter only: an enabled filter now counts 0, a disabled one its
    stored weight.  The key [__proto__] itself is never sent, even when
    the store holds it. *)
Theorem toggleFilter_sent_weights (filterId : string) (s : t)
    (e : entry) (n : JsNum.t) (b : bool)
    (Hown : own (weights s) !! filterId = Some (VEntry e))
    (Hweight : e !! "weight" = Some (PNum n))
    (Henabled : e !! "enabled" = Some (PBool b))
    (Hkey : filterId ≠ "__proto__") :
  getEnabledWeights (toggleFilter filterId s)
  = <[filterId := Some (PNum (if b then JsNum.Fin 0 else n))]>
      (getEnabledWeights s)
  /\ ∀ any, getEnabledWeights any !! "__proto__" = None.
Proof.
  split; [|intros any; unfold getEnabledWeights;
            by rewrite sent_weights_lookup].
  apply map_eq. intros k. unfold getEnabledWeights, toggleFilter.
  rewrite (get_own _ _ _ Hown). simpl.
  destruct (decide (filterId = k)) as [<-|Hne].
  - rewrite lookup_insert_eq, sent_weights_lookup.
    rewrite (eqb_proto_plain filterId Hkey), lookup_insert_eq. simpl.
    rewrite Henabled, lookup_insert_eq. simpl.
    destruct b; simpl; [done|].
    rewrite lookup_insert_ne by done. by rewrite Hweight.
  - rewrite lookup_insert_ne by done. rewrite !sent_weights_lookup.
    by rewrite lookup_insert_ne.
Qed.

Lemma toggleFilter_sent_weights_witness :
  own (weights JsSamples.loaded) !! "climat"
  = Some (VEntry (config "climat" (JsNum.Fin 70) true))
  /\ config "climat" (JsNum.Fin 70) true !! "weight"
     = Some (PNum (JsNum.Fin 70))
  /\ config "climat" (JsNum.Fin 70) true !! "enabled" = Some (PBool true)
  /\ "climat" ≠ "__proto__"
  /\ getEnabledWeights (toggleFilter "climat" JsSamples.loaded)
     = <["climat" := Some (PNum (JsNum.Fin 0))]>
         (getEnabledWeights JsSamples.loaded).
Proof.
  assert ("climat" ≠ "__proto__") as Hkey by discriminate.
  split; [exact loaded_holds_climat|]. split; [reflexivity|].
  split; [reflexivity|]. split; [exact Hkey|].
  exact (proj1 (toggleFilter_sent_weights "climat" JsSamples.loaded _
                  (JsNum.Fin 70) true loaded_holds_climat eq_refl eq_refl
                  Hkey)).
Defined.

(** X13: on a first load from the default state, with categories of
    distinct ids none of which [Object.prototype] defines, the weights
    sent with a request map each category id to the default weight of the
    category and hold no other id. *)
Theorem first_load_sends_default_weights (categories : list Category)
    (Hplain : Forall plainId categories)
    (Hdistinct : NoDup (categoryIds categories)) :
  let sent :=
    getEnabledWeights
      (categoriesEffect (Some categories) createDefaultFilterState) in
  (∀ category, category ∈ categories →
     sent !! id category = Some (Some (PNum (weightDefault category))))
  /\ (∀ filterId, filterId ∉ categoryIds categories →
        sent !! filterId = None).
Proof.
  cbv zeta. unfold getEnabledWeights, categoriesEffect.
  destruct categories as [|c rest]; simpl.
  - split; [intros category Hin; by apply elem_of_nil in Hin|].
    intros filterId _. by rewrite map_fold_empty.
  - rewrite Forall_forall in Hplain. split.
    + intros category Hin. pose proof (Hplain _ Hin) as Hkey.
      rewrite sent_weights_lookup.
      rewrite (eqb_proto_plain _ (proj1 Hkey)).
      change (foldl (initEntry JsObject.empty)
                (initEntry JsObject.empty JsObject.empty c) rest)
        with (foldl (initEntry JsObject.empty) JsObject.empty (c :: rest)).
      rewrite (initLoop_own_fresh _ _ _ category); try done.
      * apply (proj1 Hkey).
      * by rewrite get_plain.
    + intros filterId Hout. rewrite sent_weights_lookup.
      destruct (String.eqb filterId "__proto__"); [done|].
      change (foldl (initEntry JsObject.empty)
                (initEntry JsObject.empty JsObject.empty c) rest)
        with (foldl (initEntry JsObject.empty) JsObject.empty (c :: rest)).
      by rewrite initLoop_own_frame.
Qed.

Lemma plainKey_proximite_mer : plainKey "proximite_mer".
Proof.
  split; [discriminate|]. apply (bool_decide_unpack _). vm_compute. exact I.
Qed.

Lemma first_load_sends_default_weights_witness :
  Forall plainId [JsSamples.proximite_mer; JsSamples.climat]
  /\ NoDup (categoryIds [JsSamples.proximite_mer; JsSamples.climat])
  /\ getEnabledWeights
       (categoriesEffect (Some [JsSamples.proximite_mer; JsSamples.climat])
          createDefaultFilterState) !! "climat"
     = Some (Some (PNum (JsNum.Fin 70))).
Proof.
  assert (Forall plainId [JsSamples.proximite_mer; JsSamples.climat])
    as Hplain.
  { apply Forall_cons_2; [exact plainKey_proximite_mer|].
    apply Forall_cons_2; [exact plainKey_climat|]. apply Forall_nil_2. }
  assert (NoDup (categoryIds [JsSamples.proximite_mer; JsSamples.climat]))
    as Hdistinct.
  { apply (bool_decide_unpack _). vm_compute. exact I. }
  split; [exact Hplain|]. split; [exact Hdistinct|].
  destruct (first_load_sends_default_weights _ Hplain Hdistinct)
    as [Hsent _].
  apply (Hsent JsSamples.climat). right. left.
Defined.

(** *** Invariants along a run *)

Lemma js_run_invariant (I : t → Prop) (P : Action → Prop) :
  (∀ a s, P a → I s → I (dispatch a s)) →
  ∀ actions s, Forall P actions → I s → I (run actions s).
Proof.
  intros Hstep actions. unfold run.
  induction actions as [|a rest IH]; intros s Hok Hs; simpl; [done|].
  apply Forall_cons in Hok as [Ha Hrest]. apply IH; [done|]. by apply Hstep.
Qed.















Example setPopulationRange_NaN :
  population (setPopulationRange (JsNum.Fin 5) JsNum.NaN
                createDefaultFilterState)
  = {| min := JsNum.Fin 5; max := JsNum.NaN; enabled := false |}.
Proof. vm_compute. reflexivity. Qed.

(** *** The weight invariant *)

Lemma weightInRange_config (k : string) (n : JsNum.t) (b : bool) :
  JsNum.inRange n → weightInRange (VEntry (config k n b)).
Proof. intros Hn. exists (config k n b), n, b. done. Qed.

Lemma initLoop_entriesOk current categories acc :
  proto current = None → entriesOk current →
  Forall categoryOk categories →
  proto acc = None → entriesOk acc →
  proto (foldl (initEntry current) acc categories) = None
  /\ entriesOk (foldl (initEntry current) acc categories).
Proof.
  intros Hproto Hcurrent Hok. revert acc.
  induction Hok as [|c rest [Hkey Hdefault] Hrest IH];
    intros acc Hacc Hentries; simpl; [done|].
  rewrite initEntry_assign, (assign_other _ _ _ (proj1 Hkey)).
  apply IH; [done|]. intros k v; simpl.
  rewrite lookup_insert_Some. intros [[<- <-]|[Hne Hk]].
  - split; [done|]. rewrite get_plain by done.
    destruct (own current !! id c) as [v|] eqn:Hv; simpl.
    + by destruct (Hcurrent _ _ Hv).
    + by apply weightInRange_config.
  - by apply Hentries.
Qed.

Lemma resetLoop_entriesOk (o : gmap string value) :
  (∀ k v, o !! k = Some v → plainKey k) →
  proto (map_fold resetEntry JsObject.empty o) = None
  /\ entriesOk (map_fold resetEntry JsObject.empty o).
Proof.
  apply (map_fold_weak_ind
           (λ (r : JsObject.t) (m : gmap string value),
              (∀ k v, m !! k = Some v → plainKey k) →
              proto r = None /\ entriesOk r)).
  - intros _. split; [done|]. intros k v. simpl. by rewrite lookup_empty.
  - intros i x m r Hfresh IH Hkeys.
    assert (plainKey i) as Hi by (apply (Hkeys i x), lookup_insert_eq).
    destruct IH as [Hproto Hentries].
    { intros k v Hk. apply (Hkeys k v). rewrite lookup_insert_ne; [done|].
      intros ->. by rewrite Hfresh in Hk. }
    unfold resetEntry. rewrite (assign_other _ _ _ (proj1 Hi)).
    split; [done|]. intros k v; simpl.
    rewrite lookup_insert_Some. intros [[<- <-]|[Hne Hk]].
    + split; [done|]. eexists _, (JsNum.Fin 50), true.
      split; [reflexivity|]. rewrite lookup_insert_ne by done.
      rewrite !lookup_insert_eq.
      repeat split; vm_compute; discriminate.
    + by apply Hentries.
Qed.

Lemma dispatch_wellFormed (a : Action) (s : t) :
  actionOk a → wellFormed s → wellFormed (dispatch a s).
Proof.
  intros Hok [Hproto Hentries].
  destruct a as [categories|filterId weight|filterId|score|lo hi| | | | |];
    simpl; try (split; [exact Hproto | exact Hentries]).
  - by apply initLoop_entriesOk.
  - destruct Hok as [Hkey Hweight]. unfold setWeight.
    rewrite get_plain by done.
    destruct (own (weights s) !! filterId) as [read|] eqn:Hread;
      [|by split].
    destruct (Hentries _ _ Hread)
      as [_ (e & n & b & -> & Hw & Hn & Hb)]. simpl.
    split; [done|]. intros k v; simpl.
    rewrite lookup_insert_Some. intros [[<- <-]|[Hne Hk]].
    + split; [done|]. exists (<["weight" := PNum (clamp weight)]> e),
        (clamp weight), b.
      split; [done|]. rewrite lookup_insert_eq.
      split; [done|]. split; [by apply clamp_inRange|].
      by rewrite lookup_insert_ne.
    + by apply Hentries.
  - unfold toggleFilter. rewrite get_plain by done.
    destruct (own (weights s) !! filterId) as [read|] eqn:Hread;
      [|by split].
    destruct (Hentries _ _ Hread)
      as [_ (e & n & b & -> & Hw & Hn & Hb)]. simpl.
    split; [done|]. intros k v; simpl.
    rewrite lookup_insert_Some. intros [[<- <-]|[Hne Hk]].
    + split; [done|]. eexists _, n, _.
      split; [reflexivity|]. rewrite lookup_insert_ne by done.
      split; [done|]. split; [done|]. by rewrite lookup_insert_eq.
    + by apply Hentries.
  - apply resetLoop_entriesOk. intros k v Hk. by destruct (Hentries _ _ Hk).
Qed.

(** X26: on a store whose weights object is plain and holds weight
    entries in [0,100] under keys that [Object.prototype] does not define,
    such as the default state, every weight stays a number in [0,100]
    along any sequence of store actions, given categories with such ids
    and with defaults in [0,100], such ids handed to [setWeight] and
    [toggleFilter], and no NaN handed to [setWeight].  Whatever the store
    and the id, when its guard lets the call through [setWeight] writes
    the number of [0,100] nearest to its argument: 0 for a weight at or
    below 0, 100 for one at or above 100, the weight itself in between. *)
Theorem weights_in_range_along_run (actions : list Action) (s : t)
    (Hok : Forall actionOk actions) (Hs : wellFormed s) :
  wellFormed (run actions s)
  /\ wellFormed createDefaultFilterState
  /\ (∀ filterId weight st,
        truthy (get (weights st) filterId) = true →
        ∃ e, own (weights (setWeight filterId weight st)) !! filterId
             = Some (VEntry e)
             /\ e !! "weight" = Some (PNum (nearestInRange weight)))
  /\ (∀ weight, weight ≠ JsNum.NaN → JsNum.inRange (nearestInRange weight)).
Proof.
  split; [|split; [|split]].
  - apply (js_run_invariant wellFormed actionOk); try done.
    apply dispatch_wellFormed.
  - split; [done|]. intros k v. simpl. by rewrite lookup_empty.
  - intros filterId weight st Hguard. rewrite <- clamp_nearest.
    by apply setWeight_writes_clamp.
  - intros weight Hweight. rewrite <- clamp_nearest. by apply clamp_inRange.
Qed.

Lemma default_wellFormed : wellFormed createDefaultFilterState.
Proof. split; [done|]. intros k v. simpl. by rewrite lookup_empty. Qed.

Lemma session_actionOk : Forall actionOk JsSamples.session.
Proof.
  unfold JsSamples.session.
  repeat first [ apply Forall_nil_2 | apply Forall_cons_2
               | exact I | exact plainKey_climat
               | exact plainKey_proximite_mer | split
               | discriminate | (vm_compute; discriminate) ].
Qed.

Lemma weights_in_range_along_run_witness :
  Forall actionOk JsSamples.session
  /\ wellFormed createDefaultFilterState
  /\ wellFormed (run JsSamples.session createDefaultFilterState).
Proof.
  split; [exact session_actionOk|]. split; [exact default_wellFormed|].
  exact (proj1 (weights_in_range_along_run JsSamples.session
                  createDefaultFilterState session_actionOk
                  default_wellFormed)).
Defined.

End JsFacts.

(** ** The colour scale over JavaScript values *)

Module JsColorFacts.
Import Utils ColorFacts.

(** On a finite score the loop finds the stops of the model over
    rationals. *)
Lemma findStops_Fin (s : Q) (l : list ColorStop) :
  JsColor.findStops (JsNum.Fin s) l = findStops s l.
Proof.
  induction l as [|currentStop [|nextStop rest] IH]; try reflexivity.
  change (JsColor.findStops (JsNum.Fin s) (currentStop :: nextStop :: rest))
    with (if Qle_bool (pos currentStop) s && Qle_bool s (pos nextStop)
          then Some (currentStop, nextStop)
          else JsColor.findStops (JsNum.Fin s) (nextStop :: rest)).
  rewrite IH. reflexivity.
Qed.

Lemma factor_Fin (s lowPos upPos : Q) :
  (if JsNum.lt (JsNum.Fin 0) (JsNum.sub (JsNum.Fin upPos) (JsNum.Fin lowPos))
   then JsNum.div (JsNum.sub (JsNum.Fin s) (JsNum.Fin lowPos))
                  (JsNum.sub (JsNum.Fin upPos) (JsNum.Fin lowPos))
   else JsNum.Fin 0)
  = JsNum.Fin (if negb (Qle_bool (upPos - lowPos) 0)
               then (s - lowPos) / (upPos - lowPos) else 0).
Proof.
  change (JsNum.sub (JsNum.Fin upPos) (JsNum.Fin lowPos))
    with (JsNum.Fin (upPos - lowPos)).
  change (JsNum.sub (JsNum.Fin s) (JsNum.Fin lowPos))
    with (JsNum.Fin (s - lowPos)).
  unfold JsNum.lt, JsNum.div.
  destruct (Qle_bool (upPos - lowPos) 0) eqn:Hle; simpl; [reflexivity|].
  destruct (Qeq_bool (upPos - lowPos) 0) eqn:Heq; [|reflexivity].
  apply Qeq_bool_iff in Heq.
  assert (Qle_bool (upPos - lowPos) 0 = true) as Habs
    by (apply Qle_bool_iff; lra).
  congruence.
Qed.

Lemma channel_Fin (lower upper factor : Q) :
  JsColor.channel lower upper (JsNum.Fin factor)
  = JsColor.integer (channel lower upper factor).
Proof. reflexivity. Qed.

(** On a finite score the channels are those of the model over
    rationals. *)
Lemma interpolateScoreChannels_Fin (score : Q) :
  JsColor.interpolateScoreChannels (JsNum.Fin score)
  = (λ c : Z * Z * Z,
       (JsColor.integer c.1.1, JsColor.integer c.1.2, JsColor.integer c.2))
    <$> interpolateScoreChannels score.
Proof.
  unfold JsColor.interpolateScoreChannels, interpolateScoreChannels.
  change (JsNum.Math_max (JsNum.Fin 0)
            (JsNum.Math_min (JsNum.Fin 100) (JsNum.Fin score)))
    with (JsNum.Fin (Math_max 0 (Math_min 100 score))).
  cbv zeta. rewrite findStops_Fin.
  destruct (match findStops _ stops with
            | Some (currentStop, _) => Some currentStop
            | None => head stops
            end) as [lower|]; [|reflexivity].
  destruct (match findStops _ stops with
            | Some (_, nextStop) => Some nextStop
            | None => last stops
            end) as [upper|]; [|reflexivity].
  rewrite factor_Fin, !channel_Fin. reflexivity.
Qed.

Lemma Qred_inject_Z (z : Z) : Qred (inject_Z z) = inject_Z z.
Proof.
  unfold Qred, inject_Z.
  pose proof (Z.ggcd_gcd z 1) as Hgcd.
  pose proof (Z.ggcd_correct_divisors z 1) as Hdiv.
  destruct (Z.ggcd z 1) as [d [num den]]. simpl in *.
  rewrite Z.gcd_1_r in Hgcd. subst d. destruct Hdiv as [Hnum Hden].
  assert (num = z) as -> by lia. assert (den = 1%Z) as -> by lia.
  reflexivity.
Qed.

(** A byte prints in decimal. *)
Lemma String_of_byte (z : Z) :
  byte z → JsNum.String_of_number (JsColor.integer z) = Some (pretty z).
Proof.
  intros Hz. unfold JsNum.String_of_number, JsColor.integer.
  rewrite Qred_inject_Z. simpl.
  assert ((Z.abs z <? 10 ^ 21)%Z = true) as ->; [|reflexivity].
  apply Z.ltb_lt. unfold byte in Hz.
  change (10 ^ 21)%Z with 1000000000000000000000%Z. lia.
Qed.

Lemma rgb_bytes (red green blue : Z) :
  byte red → byte green → byte blue →
  JsColor.rgb (JsColor.integer red, JsColor.integer green,
               JsColor.integer blue)
  = Some (rgb (red, green, blue)).
Proof.
  intros Hr Hg Hb. unfold JsColor.rgb; cbn [fst snd].
  by rewrite (String_of_byte red Hr), (String_of_byte green Hg),
       (String_of_byte blue Hb).
Qed.

Lemma interpolateScoreChannels_infinite :
  JsColor.interpolateScoreChannels JsNum.PosInf
  = JsColor.interpolateScoreChannels (JsNum.Fin 100)
  /\ JsColor.interpolateScoreChannels JsNum.NegInf
     = JsColor.interpolateScoreChannels (JsNum.Fin 0).
Proof. split; vm_compute; reflexivity. Qed.

Lemma interpolateScoreColor_Fin (score : Q) :
  ∃ red green blue,
    JsColor.interpolateScoreChannels (JsNum.Fin score)
    = Some (JsColor.integer red, JsColor.integer green,
            JsColor.integer blue)
    /\ byte red /\ byte green /\ byte blue.
Proof.
  destruct (finite_score_channels score)
    as (red & green & blue & Hchannels & _ & Hbytes).
  exists red, green, blue. split; [|exact Hbytes].
  by rewrite interpolateScoreChannels_Fin, Hchannels.
Qed.

(** X23: for every score but NaN, the infinities included,
    [interpolateScoreColor] does not take the grey fallback: it returns
    [rgb(r, g, b)] with three integer channels between 0 and 255.  For
    NaN it returns [rgb(NaN, NaN, NaN)], which is not a colour; the
    infinities get the colours of the two ends of the scale, and a finite
    score the colour computed on rationals. *)
Theorem interpolateScoreColor_bytes (score : JsNum.t)
    (Hscore : score ≠ JsNum.NaN) :
  (∃ red green blue,
     JsColor.interpolateScoreChannels score
     = Some (JsColor.integer red, JsColor.integer green,
             JsColor.integer blue)
     /\ JsColor.interpolateScoreColor score = Some (rgb (red, green, blue))
     /\ byte red /\ byte green /\ byte blue)
  /\ JsColor.interpolateScoreColor JsNum.NaN = Some "rgb(NaN, NaN, NaN)"
  /\ JsColor.interpolateScoreColor JsNum.PosInf = Some "rgb(34, 197, 94)"
  /\ JsColor.interpolateScoreColor JsNum.NegInf = Some "rgb(239, 68, 68)"
  /\ ∀ finite, JsColor.interpolateScoreColor (JsNum.Fin finite)
               = Some (interpolateScoreColor finite).
Proof.
  split; [|split; [vm_compute; reflexivity|split; [vm_compute; reflexivity|
           split; [vm_compute; reflexivity|]]]]; cycle 1.
  { intros finite.
    destruct (finite_score_channels finite)
      as (red & green & blue & Hchannels & -> & Hr & Hg & Hb).
    unfold JsColor.interpolateScoreColor.
    rewrite interpolateScoreChannels_Fin, Hchannels. simpl.
    by apply rgb_bytes. }
  assert (∃ red green blue,
            JsColor.interpolateScoreChannels score
            = Some (JsColor.integer red, JsColor.integer green,
                    JsColor.integer blue)
            /\ byte red /\ byte green /\ byte blue)
    as (red & green & blue & Hchannels & Hr & Hg & Hb).
  { destruct score as [| |q|]; [done| | |].
    - rewrite (proj2 interpolateScoreChannels_infinite).
      apply interpolateScoreColor_Fin.
    - apply interpolateScoreColor_Fin.
    - rewrite (proj1 interpolateScoreChannels_infinite).
      apply interpolateScoreColor_Fin. }
  exists red, green, blue. split; [exact Hchannels|].
  split; [|done]. unfold JsColor.interpolateScoreColor.
  rewrite Hchannels. by apply rgb_bytes.
Qed.

Lemma interpolateScoreColor_bytes_witness :
  JsNum.PosInf ≠ JsNum.NaN
  /\ ∃ red green blue,
       JsColor.interpolateScoreChannels JsNum.PosInf
       = Some (JsColor.integer red, JsColor.integer green,
               JsColor.integer blue)
       /\ JsColor.interpolateScoreColor JsNum.PosInf
          = Some (rgb (red, green, blue))
       /\ byte red /\ byte green /\ byte blue.
Proof.
  assert (JsNum.PosInf ≠ JsNum.NaN) as Hscore by discriminate.
  split; [exact Hscore|].
  exact (proj1 (interpolateScoreColor_bytes JsNum.PosInf Hscore)).
Defined.

Example interpolateScoreColor_samples :
  JsColor.interpolateScoreColor (JsNum.Fin (25 # 2))
  = Some "rgb(244, 92, 45)"
  /\ JsColor.interpolateScoreColor JsNum.PosInf = Some "rgb(34, 197, 94)"
  /\ JsColor.interpolateScoreColor JsNum.NegInf = Some "rgb(239, 68, 68)".
Proof. repeat split; vm_compute; reflexivity. Qed.

End JsColorFacts.

(** ** The two models of the store agree *)

Module AgreementFacts.
Import JsObject Agreement.

Lemma config_weight (k : string) (n : JsNum.t) (b : bool) :
  JsStore.config k n b !! "weight" = Some (PNum n).
Proof. reflexivity. Qed.

Lemma config_enabled (k : string) (n : JsNum.t) (b : bool) :
  JsStore.config k n b !! "enabled" = Some (PBool b).
Proof. reflexivity. Qed.

Lemma config_set_weight (k : string) (n m : JsNum.t) (b : bool) :
  <["weight" := PNum m]> (JsStore.config k n b) = JsStore.config k m b.
Proof.
  unfold JsStore.config.
  rewrite (insert_insert_ne _ "weight" "id") by done.
  by rewrite insert_insert_eq.
Qed.

Lemma config_set_enabled (k : string) (n : JsNum.t) (b c : bool) :
  <["enabled" := PBool c]> (JsStore.config k n b) = JsStore.config k n c.
Proof.
  unfold JsStore.config.
  rewrite (insert_insert_ne _ "enabled" "id") by done.
  rewrite (insert_insert_ne _ "enabled" "weight") by done.
  by rewrite insert_insert_eq.
Qed.

Lemma get_weights_of (w : gmap string WeightConfig.t) (k : string) :
  plainKey k → get (weights_of w) k = entry_of <$> w !! k.
Proof.
  intros Hk. rewrite JsFacts.get_plain by done. simpl. apply lookup_fmap.
Qed.

Lemma withKey_weights_of w (k : string) (c : WeightConfig.t) :
  withKey (weights_of w) k (entry_of c) = weights_of (<[k := c]> w).
Proof. unfold withKey, weights_of; simpl. by rewrite fmap_insert. Qed.

Lemma setWeight_agrees (filterId : string) (weight : number) s :
  plainKey filterId →
  JsStore.setWeight filterId (JsNum.Fin weight) (state_of s)
  = state_of (Store.setWeight filterId weight s).
Proof.
  intros Hk. unfold JsStore.setWeight, Store.setWeight.
  change (JsStore.weights (state_of s))
    with (weights_of (FilterState.weights s)).
  rewrite get_weights_of by done.
  destruct (FilterState.weights s !! filterId) as [c|]; [|done]. simpl.
  rewrite config_set_weight.
  change (VEntry (JsStore.config (WeightConfig.id c)
                    (JsStore.clamp (JsNum.Fin weight))
                    (WeightConfig.enabled c)))
    with (entry_of {| WeightConfig.id := WeightConfig.id c;
                      WeightConfig.weight := Math_max 0 (Math_min 100 weight);
                      WeightConfig.enabled := WeightConfig.enabled c |}).
  by rewrite withKey_weights_of.
Qed.

Lemma toggleFilter_agrees (filterId : string) s :
  plainKey filterId →
  JsStore.toggleFilter filterId (state_of s)
  = state_of (Store.toggleFilter filterId s).
Proof.
  intros Hk. unfold JsStore.toggleFilter, Store.toggleFilter.
  change (JsStore.weights (state_of s))
    with (weights_of (FilterState.weights s)).
  rewrite get_weights_of by done.
  destruct (FilterState.weights s !! filterId) as [c|]; [|done]. simpl.
  rewrite config_enabled. simpl. rewrite config_set_enabled.
  change (VEntry (JsStore.config (WeightConfig.id c)
                    (JsNum.Fin (WeightConfig.weight c))
                    (negb (WeightConfig.enabled c))))
    with (entry_of {| WeightConfig.id := WeightConfig.id c;
                      WeightConfig.weight := WeightConfig.weight c;
                      WeightConfig.enabled := negb (WeightConfig.enabled c) |}).
  by rewrite withKey_weights_of.
Qed.

Lemma initLoop_agrees current categories acc :
  Forall (λ c, plainKey (FilterCategory.id c)) categories →
  foldl (JsStore.initEntry (weights_of current)) (weights_of acc)
    (category_of <$> categories)
  = weights_of (foldl (Store.initEntry current) acc categories).
Proof.
  intros Hplain. revert acc.
  induction Hplain as [|c rest Hkey Hrest IH]; intros acc; simpl; [done|].
  rewrite <- IH. f_equal.
  unfold JsStore.initEntry, Store.initEntry.
  change (JsStore.id (category_of c)) with (FilterCategory.id c).
  rewrite get_weights_of by done.
  destruct (current !! FilterCategory.id c) as [existing|]; simpl;
    rewrite JsFacts.assign_other by apply Hkey;
    unfold weights_of; simpl; by rewrite fmap_insert.
Qed.

Lemma resetLoop_fmap (o : gmap string value) :
  (∀ k, is_Some (o !! k) → k ≠ "__proto__") →
  map_fold JsStore.resetEntry JsObject.empty o
  = JsObject.mk
      ((λ read, VEntry (<["enabled" := PBool true]>
                          (<["weight" := PNum (JsNum.Fin 50)]>
                             (spread read)))) <$> o)
      None.
Proof.
  apply (map_fold_weak_ind
           (λ (r : JsObject.t) (m : gmap string value),
              (∀ k, is_Some (m !! k) → k ≠ "__proto__") →
              r = JsObject.mk
                    ((λ read, VEntry (<["enabled" := PBool true]>
                                        (<["weight" := PNum (JsNum.Fin 50)]>
                                           (spread read)))) <$> m)
                    None)).
  - intros _. by rewrite fmap_empty.
  - intros i x m r Hfresh IH Hkeys.
    assert (i ≠ "__proto__") as Hi.
    { apply Hkeys. rewrite lookup_insert_eq. by eexists. }
    rewrite IH.
    + unfold JsStore.resetEntry. rewrite JsFacts.assign_other by done.
      simpl. by rewrite fmap_insert.
    + intros k Hk. apply Hkeys. rewrite lookup_insert_ne; [done|].
      intros ->. rewrite Hfresh in Hk. by destruct Hk.
Qed.

Lemma resetFilters_agrees s :
  plainState s →
  JsStore.resetFilters (state_of s) = state_of (Store.resetFilters s).
Proof.
  intros Hs. unfold JsStore.resetFilters.
  change (own (JsStore.weights (state_of s)))
    with (entry_of <$> FilterState.weights s).
  rewrite resetLoop_fmap.
  - unfold state_of at 2.
    rewrite StoreFacts.resetFilters_weights. unfold weights_of.
    rewrite <- !map_fmap_compose.
    rewrite (map_fmap_ext _ (entry_of ∘ Store.resetConfig)); [reflexivity|].
    intros k c _. unfold compose, entry_of; simpl.
    by rewrite config_set_weight, config_set_enabled.
  - intros k. rewrite lookup_fmap, fmap_is_Some. intros Hk.
    apply (Hs k Hk).
Qed.

Lemma dispatch_agrees (a : Store.Action) s :
  plainAction a → plainState s →
  JsStore.dispatch (action_of a) (state_of s)
  = state_of (Store.dispatch a s).
Proof.
  intros Ha Hs.
  destruct a as [categories|filterId weight|filterId|score|lo hi| | | | |];
    simpl; try reflexivity.
  - unfold JsStore.initializeFromCategories, Store.initializeFromCategories.
    cbv zeta.
    change JsObject.empty with (weights_of ∅).
    change (JsStore.weights (state_of s))
      with (weights_of (FilterState.weights s)).
    by rewrite initLoop_agrees.
  - by apply setWeight_agrees.
  - by apply toggleFilter_agrees.
  - by apply resetFilters_agrees.
Qed.

Lemma dispatch_plainState (a : Store.Action) s :
  plainAction a → plainState s → plainState (Store.dispatch a s).
Proof.
  intros Ha Hs.
  destruct a as [categories|filterId weight|filterId|score|lo hi| | | | |];
    simpl; try exact Hs.
  - intros k. unfold Store.initializeFromCategories; simpl.
    rewrite StoreExtras.initLoop_is_Some, lookup_empty.
    intros [[? ?]|Hk]; [done|].
    unfold StoreProps.categoryIds in Hk.
    apply list_elem_of_fmap in Hk as (c & -> & Hc).
    simpl in Ha. rewrite Forall_forall in Ha. by apply Ha.
  - intros k. unfold Store.setWeight.
    destruct (FilterState.weights s !! filterId) as [c|] eqn:Hc;
      [|apply Hs]. simpl.
    rewrite lookup_insert_is_Some. intros [<-|[_ Hk]]; [done | by apply Hs].
  - intros k. unfold Store.toggleFilter.
    destruct (FilterState.weights s !! filterId) as [c|] eqn:Hc;
      [|apply Hs]. simpl.
    rewrite lookup_insert_is_Some. intros [<-|[_ Hk]]; [done | by apply Hs].
  - intros k. rewrite StoreFacts.resetFilters_weights.
    rewrite lookup_fmap, fmap_is_Some. apply Hs.
Qed.

Lemma getEnabledWeights_agrees s :
  plainState s →
  JsStore.getEnabledWeights (state_of s)
  = sent_of <$> Store.getEnabledWeights s.
Proof.
  intros Hs. apply map_eq. intros k.
  unfold JsStore.getEnabledWeights, Store.getEnabledWeights.
  rewrite JsFacts.sent_weights_lookup, lookup_fmap.
  rewrite StoreFacts.enabledWeights_lookup.
  change (own (JsStore.weights (state_of s)))
    with (entry_of <$> FilterState.weights s).
  rewrite lookup_fmap.
  destruct (FilterState.weights s !! k) as [c|] eqn:Hc; simpl.
  - assert (plainKey k) as Hk by (apply Hs; by eexists).
    rewrite (JsFacts.eqb_proto_plain k (proj1 Hk)).
    rewrite config_enabled. unfold Store.effectiveWeight, sent_of. simpl.
    by destruct (WeightConfig.enabled c).
  - by destruct (String.eqb k "__proto__").
Qed.

(** X28: on finite numbers and filter ids that [Object.prototype] does not
    define, the store over JavaScript values and the store over own keys
    and rationals agree: along any run, started from a state holding such
    ids only, the one reaches the image of the state the other reaches,
    and the weights sent with a request are the same. *)
Theorem run_agrees (actions : list Store.Action) (s : FilterState.t)
    (Hactions : Forall plainAction actions) (Hs : plainState s) :
  JsStore.run (action_of <$> actions) (state_of s)
  = state_of (Store.run actions s)
  /\ JsStore.getEnabledWeights
       (JsStore.run (action_of <$> actions) (state_of s))
     = sent_of <$> Store.getEnabledWeights (Store.run actions s)
  /\ state_of createDefaultFilterState = JsStore.createDefaultFilterState.
Proof.
  assert (JsStore.run (action_of <$> actions) (state_of s)
          = state_of (Store.run actions s)
          /\ plainState (Store.run actions s)) as [Hrun Hplain].
  { revert s Hs. unfold JsStore.run, Store.run.
    induction Hactions as [|a rest Ha Hrest IH]; intros s Hs; simpl;
      [done|].
    rewrite dispatch_agrees by done. apply IH.
    by apply dispatch_plainState. }
  split; [exact Hrun|]. split; [|reflexivity].
  rewrite Hrun. by apply getEnabledWeights_agrees.
Qed.

Lemma session_plainAction : Forall plainAction Samples.session.
Proof.
  unfold Samples.session.
  repeat first [ apply Forall_nil_2 | apply Forall_cons_2 | exact I
               | exact JsFacts.plainKey_climat
               | exact JsFacts.plainKey_proximite_mer ].
Qed.

Lemma default_plainState : plainState createDefaultFilterState.
Proof. intros k. simpl. rewrite lookup_empty. by intros [? ?]. Qed.

Lemma run_agrees_witness :
  Forall plainAction Samples.session
  /\ plainState createDefaultFilterState
  /\ JsStore.run (action_of <$> Samples.session)
       (state_of createDefaultFilterState)
     = state_of (Store.run Samples.session createDefaultFilterState).
Proof.
  split; [exact session_plainAction|]. split; [exact default_plainState|].
  exact (proj1 (run_agrees Samples.session createDefaultFilterState
                  session_plainAction default_plainState)).
Defined.

End AgreementFacts.
